(** * A library catalogue kept in a JSON file: [books.py] and [library.py]

    The development follows the two source files.  [Py] holds the handful
    of Python built-ins the code calls ([str], [int], [max], [in]),
    [Books] the [Book] entity with [to_dict] / [from_dict], and [Library]
    the file-backed operations [load_library], [save_library], [add_book],
    [remove_book], [search_books] and [update_book_status].

    Conventions of the model:
    - a Python [int] is a [Z], a Python [str] the [string] of its UTF-8
      bytes (a substring of bytes is a substring of characters and
      conversely, UTF-8 being self-synchronising);
    - values have the types the annotations of the source give them: a
      record is a [Dict[str, str]], a [gmap string string] here;
    - a function that touches the files or prints is a function from the
      world to an outcome and a world, the outcome being a value or an
      exception;
    - a file is known by what the code can see of it: whether its bytes
      decode, whether its text is JSON, and which elements the loaded value
      yields. *)

From Stdlib Require Import ZArith String Ascii List Decimal DecimalString DecimalZ Lia.
From stdpp Require Import base option list gmap strings fin_maps.

Local Open Scope string_scope.
Local Open Scope list_scope.
Local Open Scope Z_scope.

(** ** Python built-ins used by the program *)

Module Py.

(** [str(n)] for an integer: the decimal numeral, with a leading minus
    sign for negative numbers.  Python integers are unbounded, hence [Z]. *)
Definition str (n : Z) : string := NilZero.string_of_int (Z.to_int n).

(** Blank characters skipped by [int] around the numeral. *)
Definition is_space (c : ascii) : bool :=
  let n := N_of_ascii c in ((9 <=? n) && (n <=? 13) || (n =? 32))%N.

Definition digit_of (c : ascii) : option Z :=
  let n := N_of_ascii c in
  if ((48 <=? n) && (n <=? 57))%N then Some (Z.of_N n - 48) else None.

Fixpoint lstrip (cs : list ascii) : list ascii :=
  match cs with
  | c :: cs' => if is_space c then lstrip cs' else cs
  | [] => []
  end.

Definition strip (cs : list ascii) : list ascii :=
  rev (lstrip (rev (lstrip cs))).

(** Digits after the first one; a single underscore may separate two
    digits, as in [1_000]. *)
Fixpoint digits_from (acc : Z) (cs : list ascii) : option Z :=
  match cs with
  | [] => Some acc
  | c :: cs' =>
      if Ascii.eqb c "_" then
        match cs' with
        | d :: cs'' =>
            match digit_of d with
            | Some v => digits_from (10 * acc + v) cs''
            | None => None
            end
        | [] => None
        end
      else
        match digit_of c with
        | Some v => digits_from (10 * acc + v) cs'
        | None => None
        end
  end.

Definition numeral (cs : list ascii) : option Z :=
  match cs with
  | d :: cs' =>
      match digit_of d with
      | Some v => digits_from v cs'
      | None => None
      end
  | [] => None
  end.

(** [int(s)] for a string, base ten: blanks around, an optional sign, then
    the numeral, written with the digits [0] to [9].  [None] stands for
    the [ValueError] Python raises.  Python also reads the decimal digits
    and the blanks of other scripts; a string with such characters is
    rejected here.  The properties below depend on which strings [int]
    accepts only through the fact that it reads back what [str] writes. *)
Definition int (s : string) : option Z :=
  match strip (list_ascii_of_string s) with
  | "+"%char :: cs => numeral cs
  | "-"%char :: cs => Z.opp <$> numeral cs
  | cs => numeral cs
  end.

(** [max(xs, default=d)]: the default is used for an empty iterable only. *)
Definition max_default (d : Z) (xs : list Z) : Z :=
  match xs with
  | [] => d
  | x :: xs' => fold_left Z.max xs' x
  end.

(** [needle in hay] on strings. *)
Fixpoint contains (needle hay : string) : bool :=
  String.prefix needle hay ||
  match hay with
  | EmptyString => false
  | String _ hay' => contains needle hay'
  end.

(** [str.lower] on the ASCII letters; the other characters are kept.
    It is the lower-casing used in the examples. *)
Definition lower_char (c : ascii) : ascii :=
  let n := N_of_ascii c in
  if ((65 <=? n) && (n <=? 90))%N then ascii_of_N (n + 32) else c.

Fixpoint ascii_lower (s : string) : string :=
  match s with
  | EmptyString => EmptyString
  | String c s' => String (lower_char c) (ascii_lower s')
  end.

(** [x in xs] for a list of strings. *)
Definition in_list (x : string) (xs : list string) : bool :=
  existsb (String.eqb x) xs.

(** Truthiness of the values the code tests with a bare [if]. *)
Definition truthy_str (s : string) : bool :=
  match s with EmptyString => false | _ => true end.

Definition truthy_int (n : Z) : bool := negb (n =? 0)%Z.

End Py.

(** ** Exceptions

    Only the exception classes matter to the callers; [KeyError] carries
    the missing key, messages are left out.  [Raise e] is an uncaught
    exception leaving the function.  In Python [JSONDecodeError] and
    [UnicodeDecodeError] are subclasses of [ValueError]; an [except] clause
    for the two former does not catch a plain [ValueError]. *)

Inductive exn : Type :=
| FileNotFoundError
| JSONDecodeError
| UnicodeDecodeError
| KeyError (key : string)
| ValueError
| TypeError.

Inductive res (A : Type) : Type :=
| Ok (a : A)
| Raise (e : exn).
Arguments Ok {A} a.
Arguments Raise {A} e.

#[global] Instance res_ret : MRet res := λ A a, Ok a.
#[global] Instance res_bind : MBind res := λ A B f m,
  match m with
  | Ok a => f a
  | Raise e => Raise e
  end.
#[global] Instance res_fmap : FMap res := λ A B f m,
  match m with
  | Ok a => Ok (f a)
  | Raise e => Raise e
  end.

(** ** [books.py] *)

Module Books.

Record Book : Type := mkBook {
  id : Z;
  title : string;
  author : string;
  year : Z;
  status : string
}.

(** The default of the [status] argument of [Book.__init__]. *)
Definition default_status : string := "в наличии".

(** [Book.to_dict]: a [Dict[str, str]]; [id] and [year] go through [str]. *)
Definition to_dict (self : Book) : gmap string string :=
  {[ "id" := Py.str (id self);
     "title" := title self;
     "author" := author self;
     "year" := Py.str (year self);
     "status" := status self ]}.

(** [data[key]]: [KeyError] when the key is absent. *)
Definition getitem (data : gmap string string) (key : string) : res string :=
  match data !! key with
  | Some v => Ok v
  | None => Raise (KeyError key)
  end.

(** [int(s)]: [ValueError] when [s] is not a numeral. *)
Definition int (s : string) : res Z :=
  match Py.int s with
  | Some n => Ok n
  | None => Raise ValueError
  end.

(** [Book.from_dict]: the keyword arguments are evaluated in the order in
    which they are written, so the first failing one decides the exception. *)
Definition from_dict (data : gmap string string) : res Book :=
  i ← getitem data "id" ≫= int;
  t ← getitem data "title";
  a ← getitem data "author";
  y ← getitem data "year" ≫= int;
  s ← getitem data "status";
  mret (mkBook i t a y s).

End Books.

(** ** [library.py] *)

Module Library.

(** What the code can see of a file.
    - [NotUtf8]: the bytes are not UTF-8 text (a file saved in another
      encoding, say); reading it raises [UnicodeDecodeError].
    - [NotJson]: the bytes are text, and the text is not JSON; [json.load]
      raises [JSONDecodeError].
    - [JsonArray records]: [json.load] returns a value that, iterated,
      yields the objects [records] and nothing else; it is what
      [save_library] writes.  The values of an object are strings, as
      [Book.from_dict] is annotated to take ([Dict[str, str]]).
    - [JsonOther records]: [json.load] returns a value that, iterated,
      yields the objects [records] and then something that is not an object
      (a number, a string, [null], a list), or a value that cannot be
      iterated at all ([records] is empty then).
    Objects with a value that is not a string are outside the model.
    [json.dump] followed by [json.load] gives back the value that was
    written. *)
Inductive content : Type :=
| NotUtf8
| NotJson
| JsonArray (records : list (gmap string string))
| JsonOther (records : list (gmap string string)).

(** An element the loaded value yields: an object, or something else. *)
Inductive element : Type :=
| Object (data : gmap string string)
| NotObject.

(** The part of the outside world the functions touch: the files by path,
    and the lines printed so far. *)
Record world : Type := mkWorld {
  files : gmap string content;
  stdout : list string
}.

(** A computation that reads and writes the world and may raise.  The
    world it leaves behind is kept when it raises. *)
Definition IO (A : Type) : Type := world → res A * world.

#[global] Instance io_ret : MRet IO := λ A a w, (Ok a, w).
#[global] Instance io_bind : MBind IO := λ A B f m w,
  match m w with
  | (Ok a, w') => f a w'
  | (Raise e, w') => (Raise e, w')
  end.

Definition lift {A} (r : res A) : IO A := λ w, (r, w).

Definition raise {A} (e : exn) : IO A := λ w, (Raise e, w).

(** [try: body  except (classes): handler] *)
Definition try_except {A} (body : IO A) (caught : exn → bool) (handler : IO A) : IO A :=
  λ w,
    match body w with
    | (Ok a, w') => (Ok a, w')
    | (Raise e, w') => if caught e then handler w' else (Raise e, w')
    end.

(** [open(file_path, "r")] followed by reading the whole file. *)
Definition open_read (file_path : string) : IO content := λ w,
  match files w !! file_path with
  | Some c => (Ok c, w)
  | None => (Raise FileNotFoundError, w)
  end.

(** [json.load(file)], as the elements the comprehension of [load_library]
    goes through.  A value that cannot be iterated raises [TypeError] before
    any element, like a first element that is not an object. *)
Definition json_load (c : content) : res (list element) :=
  match c with
  | NotUtf8 => Raise UnicodeDecodeError
  | NotJson => Raise JSONDecodeError
  | JsonArray records => Ok (Object <$> records)
  | JsonOther records => Ok ((Object <$> records) ++ [NotObject])
  end.

(** [Book.from_dict(book)] on an element: [data["id"]], the first thing
    [from_dict] evaluates, raises [TypeError] when [data] is not an object. *)
Definition from_dict (book : element) : res Books.Book :=
  match book with
  | Object data => Books.from_dict data
  | NotObject => Raise TypeError
  end.

(** [open(file_path, "w")] followed by [json.dump]: the file is created or
    overwritten. *)
Definition open_write_dump (file_path : string) (records : list (gmap string string)) : IO unit :=
  λ w, (Ok tt, mkWorld (<[file_path := JsonArray records]> (files w)) (stdout w)).

Definition print (line : string) : IO unit :=
  λ w, (Ok tt, mkWorld (files w) (stdout w ++ [line])%list).

Definition load_library (file_path : string) : IO (list Books.Book) :=
  try_except
    (c ← open_read file_path;
     elements ← lift (json_load c);
     lift (mapM from_dict elements))
    (λ e, match e with
          | FileNotFoundError | JSONDecodeError => true
          | _ => false
          end)
    (mret []).

Definition save_library (books : list Books.Book) (file_path : string) : IO unit :=
  _ ← open_write_dump file_path (List.map Books.to_dict books);
  print ("Запись в " +:+ file_path +:+ ".").

Definition add_book (title author : string) (year : Z) (file_path : string) : IO Books.Book :=
  books ← load_library file_path;
  let new_id := Py.max_default 0 (List.map Books.id books) + 1 in
  let new_book := Books.mkBook new_id title author year Books.default_status in
  let books := (books ++ [new_book])%list in
  _ ← save_library books file_path;
  mret new_book.

Definition remove_book (book_id : Z) (file_path : string) : IO bool :=
  books ← load_library file_path;
  let filtered_books := List.filter (λ book, negb (Books.id book =? book_id)%Z) books in
  if (length filtered_books =? length books)%nat then mret false
  else
    _ ← save_library filtered_books file_path;
    mret true.

Definition list_books (file_path : string) : IO (list Books.Book) :=
  load_library file_path.

Section Search.

(** [str.lower], which follows the Unicode case tables, is a parameter. *)
Variable lower : string → string.

Definition search_books (file_path : string)
    (title author : option string) (year : option Z) : IO (list Books.Book) :=
  books ← load_library file_path;
  let results := books in
  let results :=
    match title with
    | Some title =>
        if Py.truthy_str title then
          List.filter (λ book, Py.contains (lower title) (lower (Books.title book))) results
        else results
    | None => results
    end in
  let results :=
    match author with
    | Some author =>
        if Py.truthy_str author then
          List.filter (λ book, Py.contains (lower author) (lower (Books.author book))) results
        else results
    | None => results
    end in
  let results :=
    match year with
    | Some year =>
        if Py.truthy_int year then
          List.filter (λ book, (Books.year book =? year)%Z) results
        else results
    | None => results
    end in
  mret results.

End Search.

(** The statuses [update_book_status] accepts. *)
Definition statuses : list string := ["в наличии"; "выдана"].

Definition set_status (book : Books.Book) (status : string) : Books.Book :=
  Books.mkBook (Books.id book) (Books.title book) (Books.author book)
               (Books.year book) status.

(** The [for book in books] loop of [update_book_status]: [seen] are the
    books already passed, [rest] the ones still to visit.  The assignment
    [book.status = status] changes the book inside the list that is saved. *)
Fixpoint update_loop (book_id : Z) (status file_path : string)
    (seen rest : list Books.Book) : IO bool :=
  match rest with
  | [] => mret false
  | book :: rest' =>
      if (Books.id book =? book_id)%Z then
        _ ← save_library (seen ++ set_status book status :: rest')%list file_path;
        mret true
      else update_loop book_id status file_path (seen ++ [book])%list rest'
  end.

Definition update_book_status (book_id : Z) (status file_path : string) : IO bool :=
  if negb (Py.in_list status statuses) then raise ValueError
  else
    books ← load_library file_path;
    update_loop book_id status file_path [] books.

End Library.

(** ** Vocabulary of the specification *)

(** The keys [Book.from_dict] reads. *)
Definition required_keys : list string :=
  ["id"; "title"; "author"; "year"; "status"].

Definition missing_key (data : gmap string string) : Prop :=
  ∃ key, key ∈ required_keys ∧ data !! key = None.

Definition not_int_parseable (data : gmap string string) (key : string) : Prop :=
  ∃ v, data !! key = Some v ∧ Py.int v = None.

Definition invalid_record (data : gmap string string) : Prop :=
  missing_key data ∨ not_int_parseable data "id" ∨ not_int_parseable data "year".

(** The exceptions of [Book.from_dict], which the specification groups
    under the name ValidationError. *)
Definition validation_error (e : exn) : Prop :=
  match e with
  | KeyError _ | ValueError => True
  | _ => False
  end.

(** [book] is the book a record describes. *)
Definition book_of_record (data : gmap string string) (book : Books.Book) : Prop :=
  (∃ v, data !! "id" = Some v ∧ Py.int v = Some (Books.id book)) ∧
  data !! "title" = Some (Books.title book) ∧
  data !! "author" = Some (Books.author book) ∧
  (∃ v, data !! "year" = Some v ∧ Py.int v = Some (Books.year book)) ∧
  data !! "status" = Some (Books.status book).

(** A book with another id than [book_id]: the ones [remove_book] keeps. *)
Definition other_id (book_id : Z) (book : Books.Book) : bool :=
  negb (Books.id book =? book_id).

(** The search filters read as the specification words them: a filter
    applies whenever its argument is given. *)
Definition matches_when_given (lower : string → string)
    (title author : option string) (year : option Z) (book : Books.Book) : bool :=
  match title with
  | Some t => Py.contains (lower t) (lower (Books.title book))
  | None => true
  end &&
  match author with
  | Some a => Py.contains (lower a) (lower (Books.author book))
  | None => true
  end &&
  match year with
  | Some y => (Books.year book =? y)%Z
  | None => true
  end.

(** The same, except that a year of [0] filters nothing. *)
Definition matches_filters (lower : string → string)
    (title author : option string) (year : option Z) (book : Books.Book) : bool :=
  match title with
  | Some t => Py.contains (lower t) (lower (Books.title book))
  | None => true
  end &&
  match author with
  | Some a => Py.contains (lower a) (lower (Books.author book))
  | None => true
  end &&
  match year with
  | Some y => (y =? 0)%Z || (Books.year book =? y)%Z
  | None => true
  end.

(** The two status values as the specification spells them. *)
Definition spec_statuses : list string := ["available"; "checked_out"].

(** One mutating operation on the library stored at [file_path], whatever
    its arguments and its outcome. *)
Inductive step (file_path : string) : Library.world → Library.world → Prop :=
| step_add title author year w :
    step file_path w (Library.add_book title author year file_path w).2
| step_remove book_id w :
    step file_path w (Library.remove_book book_id file_path w).2
| step_update book_id status w :
    step file_path w (Library.update_book_status book_id status file_path w).2.

(** The worlds reached from one in which the library is empty. *)
Inductive reachable (file_path : string) : Library.world → Prop :=
| reachable_empty w :
    (Library.load_library file_path w).1 = Ok [] → reachable file_path w
| reachable_step w w' :
    reachable file_path w → step file_path w w' → reachable file_path w'.

(** The invariant of the stored collection, for a given list of statuses. *)
Definition library_invariant (allowed : list string) (books : list Books.Book) : Prop :=
  NoDup (List.map Books.id books) ∧
  Forall (λ book, Books.status book ∈ allowed) books.

(** [load_library], then [save_library] of what was loaded, then
    [load_library] again. *)
Definition load_save_load (file_path : string) : Library.IO (list Books.Book) :=
  books ← Library.load_library file_path;
  _ ← Library.save_library books file_path;
  Library.load_library file_path.

(** ** Auxiliary definitions for the proofs about numerals *)

(** The value [Py.digits_from] computes on a numeral made of digits only. *)
Fixpoint uint_value (acc : Z) (d : uint) : Z :=
  match d with
  | Nil => acc
  | D0 d' => uint_value (10 * acc + 0) d'
  | D1 d' => uint_value (10 * acc + 1) d'
  | D2 d' => uint_value (10 * acc + 2) d'
  | D3 d' => uint_value (10 * acc + 3) d'
  | D4 d' => uint_value (10 * acc + 4) d'
  | D5 d' => uint_value (10 * acc + 5) d'
  | D6 d' => uint_value (10 * acc + 6) d'
  | D7 d' => uint_value (10 * acc + 7) d'
  | D8 d' => uint_value (10 * acc + 8) d'
  | D9 d' => uint_value (10 * acc + 9) d'
  end.

Definition uint_chars (d : uint) : list ascii :=
  list_ascii_of_string (NilEmpty.string_of_uint d).

(** ** Sample data *)

Definition empty_world : Library.world := Library.mkWorld ∅ [].

Definition war_and_peace : Books.Book :=
  Books.mkBook 1 "War and Peace" "Leo Tolstoy" 1869 "в наличии".

Definition warlock : Books.Book :=
  Books.mkBook 3 "Warlock" "Oakley Hall" 1958 "выдана".

Definition sample_world : Library.world :=
  Library.mkWorld
    {[ "library.json" := Library.JsonArray (List.map Books.to_dict [war_and_peace; warlock]) ]}
    [].

(** A library file saved in an encoding other than UTF-8, Windows-1251
    say, with a status in Cyrillic letters. *)
Definition cp1251_world : Library.world :=
  Library.mkWorld {[ "library.json" := Library.NotUtf8 ]} [].

(** A library file that holds [[1]]: JSON, an array, but of a number. *)
Definition number_world : Library.world :=
  Library.mkWorld {[ "library.json" := Library.JsonOther [] ]} [].

(** ** Tactics *)

(** Membership in a list written out in full. *)
Ltac is_elem :=
  repeat first [apply list_elem_of_here | apply list_elem_of_further].

Ltac is_not_elem :=
  let H := fresh "H" in
  intros H;
  repeat (apply elem_of_cons in H as [H | H]; [discriminate H |]);
  by apply elem_of_nil in H.

(** ** Further vocabulary *)

(** The line [save_library] prints. *)
Definition save_line (file_path : string) : string :=
  "Запись в " +:+ file_path +:+ ".".

(** A book without its status: the part [update_book_status] leaves alone. *)
Definition without_status (book : Books.Book) : Z * string * string * Z :=
  (Books.id book, Books.title book, Books.author book, Books.year book).

(** A record [Book.from_dict] accepts. *)
Definition accepted (data : gmap string string) : Prop :=
  ∃ book, Books.from_dict data = Ok book.

(** One outcome of [Book.from_dict] against the statements about its
    exceptions. *)
Ltac exception_case :=
  repeat split; intros;
  repeat match goal with
         | H : ∃ _, _ |- _ => destruct H as (? & ? & ?)
         | H : Raise _ = Raise _ |- _ => first [discriminate H | injection H as <-]
         | H : Ok _ = Raise _ |- _ => discriminate H
         end;
  first [ done | congruence | is_elem; done
        | left; eexists; by split | right; eexists; by split ].

(** Every stored id is at least [1]. *)
Definition positive_ids (books : list Books.Book) : Prop :=
  Forall (λ book, 1 ≤ Books.id book) books.

(** ** [library.py]: the console part

    The functions below read the keyboard and print.  The console adds the
    lines still to be typed to the world of the file-backed part; [stdout]
    now also receives the prompts of [input]. *)

Module Cli.

(** The constant [LIBRARY_FILE]. *)
Definition LIBRARY_FILE : string := "library.json".

Record console : Type := mkConsole {
  stdin : list string;
  world : Library.world
}.

(** What can be raised on the console: the exceptions of the file-backed
    part, [EOFError] from [input] when nothing is left to read, and
    [SystemExit] from [quit], which is not an [Exception]. *)
Inductive raised : Type :=
| Exception (e : exn)
| EOFError
| SystemExit.

Inductive outcome (A : Type) : Type :=
| Return (a : A)
| Raised (r : raised).
Arguments Return {A} a.
Arguments Raised {A} r.

Definition CLI (A : Type) : Type := console → outcome A * console.

#[global] Instance cli_ret : MRet CLI := λ A a c, (Return a, c).
#[global] Instance cli_bind : MBind CLI := λ A B f m c,
  match m c with
  | (Return a, c') => f a c'
  | (Raised r, c') => (Raised r, c')
  end.

(** A call of a function of the file-backed part. *)
Definition call {A} (m : Library.IO A) : CLI A := λ c,
  match m (world c) with
  | (Ok a, w') => (Return a, mkConsole (stdin c) w')
  | (Raise e, w') => (Raised (Exception e), mkConsole (stdin c) w')
  end.

Definition print (line : string) : CLI unit := call (Library.print line).

(** [input(prompt)]: the prompt is written, then a line is read. *)
Definition input (prompt : string) : CLI string := λ c,
  let w' := Library.mkWorld (Library.files (world c))
                            (Library.stdout (world c) ++ [prompt]) in
  match stdin c with
  | line :: rest => (Return line, mkConsole rest w')
  | [] => (Raised EOFError, mkConsole [] w')
  end.

(** [int(s)] on the console. *)
Definition int (s : string) : CLI Z := call (Library.lift (Books.int s)).

Definition raise {A} (r : raised) : CLI A := λ c, (Raised r, c).

(** [quit()] *)
Definition quit : CLI unit := raise SystemExit.

(** [try: body  except ...: handler]; [handler r] is [None] when no
    [except] clause matches [r]. *)
Definition try_except {A} (body : CLI A) (handler : raised → option (CLI A)) : CLI A :=
  λ c,
    match body c with
    | (Return a, c') => (Return a, c')
    | (Raised r, c') =>
        match handler r with
        | Some handle => handle c'
        | None => (Raised r, c')
        end
    end.

(** [try: body  finally: final]; an exception of [final] replaces the
    outcome of [body]. *)
Definition try_finally {A} (body : CLI A) (final : CLI unit) : CLI A :=
  λ c,
    match body c with
    | (out, c') =>
        match final c' with
        | (Return _, c'') => (out, c'')
        | (Raised r, c'') => (Raised r, c'')
        end
    end.

(** [except ValueError]: [JSONDecodeError] and [UnicodeDecodeError] are
    subclasses of [ValueError]. *)
Definition is_ValueError (r : raised) : bool :=
  match r with
  | Exception ValueError | Exception JSONDecodeError
  | Exception UnicodeDecodeError => true
  | _ => false
  end.

(** [except Exception]: everything but [SystemExit]. *)
Definition is_Exception (r : raised) : bool :=
  match r with
  | SystemExit => false
  | _ => true
  end.

Section Console.

(** [str.lower]; the text [print] shows for a dictionary; and the text of
    an exception, of which the model keeps the class only. *)
Variable lower : string → string.
Variable repr_dict : gmap string string → string.
Variable exception_text : raised → string.

Definition add_book_to_library : CLI unit :=
  title ← input "Введите название книги: ";
  author ← input "Введите автора книги: ";
  year ← input "Введите год издания: " ≫= int;
  new_book ← call (Library.add_book title author year LIBRARY_FILE);
  print ("Книга добавлена: " +:+ repr_dict (Books.to_dict new_book)).

Definition del_book : CLI unit :=
  book_id ← input "Введите ID книги для удаления: " ≫= int;
  removed ← call (Library.remove_book book_id LIBRARY_FILE);
  if removed : bool then print "Книга удалена."
  else print "Книга с таким ID не найдена.".

(** [for book in books: print(book.to_dict())] *)
Fixpoint print_books (books : list Books.Book) : CLI unit :=
  match books with
  | [] => mret tt
  | book :: books' =>
      _ ← print (repr_dict (Books.to_dict book));
      print_books books'
  end.

Definition search_for_book : CLI unit :=
  title ← input "Введите название книги, или оставьте пустым: ";
  author ← input "Введите автора книги, или оставьте пустым: ";
  year_input ← input "Введите год издания, или оставьте пустым: ";
  year ← (if Py.truthy_str year_input then y ← int year_input; mret (Some y)
          else mret None);
  results ← call (Library.search_books lower LIBRARY_FILE (Some title) (Some author) year);
  match results with
  | [] => print "Книга не найдена."
  | _ => print_books results
  end.

Definition show_all_books : CLI unit :=
  books ← call (Library.list_books LIBRARY_FILE);
  match books with
  | [] => print "Библиотека пуста."
  | _ => print_books books
  end.

Definition change_status_of_book : CLI unit :=
  book_id ← input "Введите ID книги для изменения статуса: " ≫= int;
  status ← input "Введите новый статус ('в наличии' или 'выдана'): ";
  updated ← call (Library.update_book_status book_id status LIBRARY_FILE);
  if updated : bool then print "Статус книги обновлён."
  else print "Книга с таким ID не найдена.".

Definition exit_library : CLI unit :=
  _ ← print "Завершение работы.";
  quit.

Definition method_dict : gmap string (CLI unit) :=
  {[ "1" := add_book_to_library;
     "2" := del_book;
     "3" := search_for_book;
     "4" := show_all_books;
     "5" := change_status_of_book;
     "6" := exit_library ]}.

(** [сhoosing_method]; the first letter of the name is the Cyrillic [с], as
    in the source. *)
Definition сhoosing_method (choice : string) : CLI unit :=
  match method_dict !! choice with
  | None => print "Нет такого пункта в меню, попробуйте снова."
  | Some method => method
  end.

(** One turn of the [while True] loop of [main]: the menu, the choice
    (read outside the [try]), then the method chosen inside it. *)
Definition main_turn : CLI unit :=
  _ ← print "1. Добавить книгу";
  _ ← print "2. Удалить книгу";
  _ ← print "3. Искать книги";
  _ ← print "4. Показать все книги";
  _ ← print "5. Изменить статус книги";
  _ ← print "6. Выход";
  choice ← input "Выберите действие (1-6): ";
  try_except (сhoosing_method choice)
    (λ e, if is_ValueError e then Some (print ("Ошибка ввода: " +:+ exception_text e))
          else if is_Exception e then Some (print ("Произошла ошибка: " +:+ exception_text e))
          else None).

(** [main]: the loop has no exit of its own, it ends when a turn raises.
    [fuel] bounds the number of turns; [None] is a loop cut short. *)
Fixpoint main (fuel : nat) (c : console) : option (raised * console) :=
  match fuel with
  | O => None
  | S fuel' =>
      match main_turn c with
      | (Return tt, c') => main fuel' c'
      | (Raised r, c') => Some (r, c')
      end
  end.

(** The [finally] block of the program. *)
Definition finally_block : CLI unit :=
  books ← call (Library.list_books LIBRARY_FILE);
  _ ← call (Library.save_library books LIBRARY_FILE);
  print "Изменения сохранены. Работа завершена.".

(** The program: [main()] under [try], [except Exception] and [finally];
    [main] ends by raising. *)
Definition program (fuel : nat) (c : console) : option (outcome unit * console) :=
  match main fuel c with
  | None => None
  | Some (r, c') =>
      Some (try_finally
              (try_except (raise r)
                 (λ e, if is_Exception e
                       then Some (print ("Произошла ошибка: " +:+ exception_text e))
                       else None))
              finally_block c')
  end.

End Console.

End Cli.

(** ** Vocabulary for the console part *)

(** A computation whose end state is always related to its start state. *)
Definition keeps (R : Cli.console → Cli.console → Prop) {A} (m : Cli.CLI A) : Prop :=
  ∀ c, R c (m c).2.

(** Lines are only taken from the front of what is left to read. *)
Definition reads_on (c c' : Cli.console) : Prop :=
  suffix (Cli.stdin c') (Cli.stdin c).

(** No file is touched. *)
Definition same_files (c c' : Cli.console) : Prop :=
  Library.files (Cli.world c') = Library.files (Cli.world c).

(** No file but the library file is touched. *)
Definition other_files_kept (c c' : Cli.console) : Prop :=
  ∀ other, other ≠ Cli.LIBRARY_FILE →
    Library.files (Cli.world c') !! other = Library.files (Cli.world c) !! other.



(** A computation that never raises [SystemExit]. *)
Definition never_exits {A} (m : Cli.CLI A) : Prop :=
  ∀ c r, (m c).1 = Cli.Raised r → r ≠ Cli.SystemExit.

(** The choices that call a method writing the library file. *)
Definition writing_choices : list string := ["1"; "2"; "5"].

(** ** Sample data for the console part *)

(** Stand-ins for the two texts the model leaves open. *)
Definition elided_dict (d : gmap string string) : string := "{...}".

Definition class_name (r : Cli.raised) : string :=
  match r with
  | Cli.Exception FileNotFoundError => "FileNotFoundError"
  | Cli.Exception JSONDecodeError => "JSONDecodeError"
  | Cli.Exception UnicodeDecodeError => "UnicodeDecodeError"
  | Cli.Exception (KeyError _) => "KeyError"
  | Cli.Exception ValueError => "ValueError"
  | Cli.Exception TypeError => "TypeError"
  | Cli.EOFError => "EOFError"
  | Cli.SystemExit => "SystemExit"
  end.

(** A session: add a book, ask for a change of status with a status that
    is not accepted, leave. *)
Definition sample_console : Cli.console :=
  Cli.mkConsole
    ["1"; "Dune"; "Frank Herbert"; "1965"; "5"; "1"; "lost"; "6"]
    sample_world.

(** * Properties *)

Example str_0 : Py.str 0 = "0". Proof. reflexivity. Qed.
Example str_neg : Py.str (-120) = "-120". Proof. reflexivity. Qed.
Example int_plain : Py.int "2024" = Some 2024. Proof. reflexivity. Qed.
Example int_blank_sign : Py.int "  -007 " = Some (-7). Proof. reflexivity. Qed.
Example int_underscore : Py.int "1_000" = Some 1000. Proof. reflexivity. Qed.
Example int_bad1 : Py.int "1__0" = None. Proof. reflexivity. Qed.
Example int_bad2 : Py.int "" = None. Proof. reflexivity. Qed.
Example int_bad3 : Py.int "- 5" = None. Proof. reflexivity. Qed.
Example int_bad4 : Py.int "12a" = None. Proof. reflexivity. Qed.
Example int_bad5 : Py.int "5_" = None. Proof. reflexivity. Qed.
Example contains_mid : Py.contains "ar" "War" = true. Proof. reflexivity. Qed.
Example contains_empty : Py.contains "" "War" = true. Proof. reflexivity. Qed.
Example contains_no : Py.contains "wa" "War" = false. Proof. reflexivity. Qed.

(** ** [int] undoes [str] *)

Section IntStr.

Lemma digits_from_uint d : ∀ acc,
  Py.digits_from acc (uint_chars d) = Some (uint_value acc d).
Proof.
  unfold uint_chars.
  induction d; intros acc; simpl; try reflexivity; apply IHd.
Qed.

Lemma uint_value_pos d : ∀ p,
  uint_value (Z.pos p) d = Z.pos (Pos.of_uint_acc d p).
Proof.
  induction d; intros p; simpl uint_value; simpl Pos.of_uint_acc;
    try reflexivity.
  all: match goal with
       | |- uint_value ?a _ = Z.pos (Pos.of_uint_acc _ ?q) =>
           replace a with (Z.pos q) by lia
       end; apply IHd.
Qed.

Lemma uint_value_0 d : uint_value 0 d = Z.of_uint d.
Proof.
  unfold Z.of_uint.
  induction d; simpl uint_value; simpl Pos.of_uint;
    [reflexivity | exact IHd | exact (uint_value_pos d _) ..].
Qed.

Lemma numeral_uint d : d ≠ Nil → Py.numeral (uint_chars d) = Some (Z.of_uint d).
Proof.
  intros Hd. rewrite <- uint_value_0.
  destruct d; [done | apply (digits_from_uint d) ..].
Qed.

Lemma lstrip_head c cs : Py.is_space c = false → Py.lstrip (c :: cs) = c :: cs.
Proof. intros H. simpl. by rewrite H. Qed.

Lemma uint_chars_no_space d : Forall (λ c, Py.is_space c = false) (uint_chars d).
Proof. unfold uint_chars. induction d; simpl; constructor; done. Qed.

Lemma lstrip_no_space cs :
  Forall (λ c, Py.is_space c = false) cs → Py.lstrip cs = cs.
Proof. destruct 1; [done | by apply lstrip_head]. Qed.

Lemma strip_no_space cs :
  Forall (λ c, Py.is_space c = false) cs → Py.strip cs = cs.
Proof.
  intros H. unfold Py.strip. rewrite (lstrip_no_space cs H).
  rewrite lstrip_no_space; [apply rev_involutive |].
  by apply List.Forall_rev.
Qed.

Lemma int_str n : Py.int (Py.str n) = Some n.
Proof.
  unfold Py.int, Py.str.
  destruct n as [| p | p]; [reflexivity | |]; simpl Z.to_int;
    simpl NilZero.string_of_int; unfold NilZero.string_of_uint;
    pose proof (DecimalPos.Unsigned.to_uint_nonnil p) as Hnil;
    pose proof (DecimalPos.Unsigned.of_to p) as Hval;
    pose proof (numeral_uint _ Hnil) as Hnum;
    pose proof (uint_chars_no_space (Pos.to_uint p)) as Hsp;
    unfold Z.of_uint in Hnum; rewrite Hval in Hnum; simpl in Hnum.
  - replace (match Pos.to_uint p with Nil => "0" | _ => NilEmpty.string_of_uint (Pos.to_uint p) end)
      with (NilEmpty.string_of_uint (Pos.to_uint p)) by (by destruct (Pos.to_uint p)).
    fold (uint_chars (Pos.to_uint p)). rewrite strip_no_space by done.
    rewrite <- Hnum. unfold uint_chars. by destruct (Pos.to_uint p).
  - replace (match Pos.to_uint p with Nil => "0" | _ => NilEmpty.string_of_uint (Pos.to_uint p) end)
      with (NilEmpty.string_of_uint (Pos.to_uint p)) by (by destruct (Pos.to_uint p)).
    simpl list_ascii_of_string. fold (uint_chars (Pos.to_uint p)).
    rewrite strip_no_space by (constructor; done).
    by rewrite Hnum.
Qed.
End IntStr.

(** ** The [Book] entity *)

Section BookRecords.

Implicit Types (data : gmap string string) (book : Books.Book).

Lemma getitem_Some data key v :
  data !! key = Some v → Books.getitem data key = Ok v.
Proof. unfold Books.getitem. by intros ->. Qed.

Lemma to_dict_lookup book :
  Books.to_dict book !! "id" = Some (Py.str (Books.id book)) ∧
  Books.to_dict book !! "title" = Some (Books.title book) ∧
  Books.to_dict book !! "author" = Some (Books.author book) ∧
  Books.to_dict book !! "year" = Some (Py.str (Books.year book)) ∧
  Books.to_dict book !! "status" = Some (Books.status book).
Proof. unfold Books.to_dict. repeat split; by simplify_map_eq. Qed.

Lemma from_dict_fields i t a y s :
  Books.from_dict (Books.to_dict (Books.mkBook i t a y s)) = Ok (Books.mkBook i t a y s).
Proof.
  destruct (to_dict_lookup (Books.mkBook i t a y s)) as (Hi & Ht & Ha & Hy & Hs).
  unfold Books.from_dict.
  rewrite (getitem_Some _ _ _ Hi), (getitem_Some _ _ _ Ht),
    (getitem_Some _ _ _ Ha), (getitem_Some _ _ _ Hy), (getitem_Some _ _ _ Hs).
  cbn. unfold Books.int. by rewrite !int_str.
Qed.

(** C1: reading back the dictionary of a book gives the book, field for
    field. *)
Theorem from_dict_to_dict book :
  Books.from_dict (Books.to_dict book) = Ok book.
Proof. destruct book. apply from_dict_fields. Qed.

Lemma valid_record_no_missing_key data vi vt va vy vs :
  data !! "id" = Some vi → data !! "title" = Some vt →
  data !! "author" = Some va → data !! "year" = Some vy →
  data !! "status" = Some vs → ¬ missing_key data.
Proof.
  intros Hi Ht Ha Hy Hs (key & Hkey & Hnone).
  unfold required_keys in Hkey.
  repeat (apply elem_of_cons in Hkey as [-> | Hkey]; [congruence |]).
  by apply elem_of_nil in Hkey.
Qed.

Lemma missing_key_intro data key :
  key ∈ required_keys → data !! key = None → invalid_record data.
Proof. intros Hkey Hnone. left. by exists key. Qed.

(** The two outcomes of [Book.from_dict]. *)
Lemma from_dict_cases data :
  match Books.from_dict data with
  | Raise e => validation_error e ∧ invalid_record data
  | Ok book => book_of_record data book ∧ ¬ invalid_record data
  end.
Proof.
  unfold Books.from_dict, Books.getitem, Books.int.
  destruct (data !! "id") as [vi |] eqn:Hi; cbn;
    [| split; [done | apply (missing_key_intro _ "id"); [is_elem | done]]].
  destruct (Py.int vi) as [i |] eqn:Hpi; cbn;
    [| split; [done | right; left; by exists vi]].
  destruct (data !! "title") as [vt |] eqn:Ht; cbn;
    [| split; [done | apply (missing_key_intro _ "title"); [is_elem | done]]].
  destruct (data !! "author") as [va |] eqn:Ha; cbn;
    [| split; [done | apply (missing_key_intro _ "author"); [is_elem | done]]].
  destruct (data !! "year") as [vy |] eqn:Hy; cbn;
    [| split; [done | apply (missing_key_intro _ "year"); [is_elem | done]]].
  destruct (Py.int vy) as [y |] eqn:Hpy; cbn;
    [| split; [done | right; right; by exists vy]].
  destruct (data !! "status") as [vs |] eqn:Hs; cbn;
    [| split; [done | apply (missing_key_intro _ "status"); [is_elem | done]]].
  split.
  - unfold book_of_record; cbn. eauto 10.
  - intros [Hmiss | [(v & Hv & Hn) | (v & Hv & Hn)]]; [| congruence ..].
    by destruct (valid_record_no_missing_key data vi vt va vy vs).
Qed.

Lemma from_dict_raises data e :
  Books.from_dict data = Raise e → validation_error e.
Proof.
  intros He. pose proof (from_dict_cases data) as Hc.
  rewrite He in Hc. apply Hc.
Qed.

(** C7: [Book.from_dict] raises exactly on the records with a required key
    missing or with an [id] or [year] that [int] rejects, the exception
    being a [KeyError] or a [ValueError]; on every other record it returns
    the book whose fields are the values of the record. *)
Theorem from_dict_validation data :
  ((∃ e, Books.from_dict data = Raise e) ↔ invalid_record data) ∧
  match Books.from_dict data with
  | Raise e => validation_error e
  | Ok book => book_of_record data book
  end.
Proof.
  pose proof (from_dict_cases data) as Hc.
  destruct (Books.from_dict data) as [book | e]; destruct Hc as [H1 H2].
  - split; [| done]. split; [by intros [e He] | done].
  - split; [| done]. split; [done | eauto].
Qed.

Example from_dict_no_title :
  Books.from_dict {[ "id" := "7"; "author" := "A"; "year" := "1999"; "status" := "выдана" ]}
    = Raise (KeyError "title").
Proof. vm_compute. reflexivity. Qed.

Example from_dict_bad_year :
  Books.from_dict {[ "id" := "7"; "title" := "T"; "author" := "A"; "year" := "MCMXCIX";
                     "status" := "выдана" ]}
    = Raise ValueError.
Proof. vm_compute. reflexivity. Qed.

Example from_dict_bad_id_first :
  Books.from_dict {[ "id" := "seven"; "year" := "1999" ]} = Raise ValueError.
Proof. vm_compute. reflexivity. Qed.

Example from_dict_blanks :
  Books.from_dict {[ "id" := " 7 "; "title" := "T"; "author" := "A"; "year" := "+1999";
                     "status" := "выдана"; "shelf" := "B2" ]}
    = Ok (Books.mkBook 7 "T" "A" 1999 "выдана").
Proof. vm_compute. reflexivity. Qed.

End BookRecords.

(** ** Loading and saving *)

Section LoadSave.

Import Library.

Implicit Types (w : world) (books : list Books.Book) (file_path : string).

Lemma mapM_from_dict_raises records e :
  mapM Books.from_dict records = Raise e → validation_error e.
Proof.
  induction records as [| data records IH]; cbn; [done |].
  destruct (Books.from_dict data) as [book | e'] eqn:Hd; cbn.
  - destruct (mapM Books.from_dict records); cbn; [done |].
    intros [= ->]. by apply IH.
  - intros [= ->]. by apply from_dict_raises in Hd.
Qed.

Lemma mapM_objects records :
  mapM Library.from_dict (Object <$> records) = mapM Books.from_dict records.
Proof.
  induction records as [| data records IH]; cbn; [done |]. by rewrite IH.
Qed.

Lemma mapM_objects_then_other records :
  mapM Library.from_dict ((Object <$> records) ++ [NotObject]) =
    match mapM Books.from_dict records with
    | Ok _ => Raise TypeError
    | Raise e => Raise e
    end.
Proof.
  induction records as [| data records IH]; cbn; [done |]. rewrite IH.
  destruct (Books.from_dict data) as [book | e]; cbn; [| done].
  by destruct (mapM Books.from_dict records).
Qed.

Lemma load_library_array file_path w records :
  files w !! file_path = Some (JsonArray records) →
  load_library file_path w = (mapM Books.from_dict records, w).
Proof.
  intros Hf.
  unfold load_library, try_except, open_read, mbind, io_bind, lift.
  rewrite Hf. cbn. rewrite mapM_objects.
  destruct (mapM Books.from_dict records) as [books | e] eqn:Hm; [done |].
  apply mapM_from_dict_raises in Hm. by destruct e.
Qed.

Lemma load_library_other file_path w records :
  files w !! file_path = Some (JsonOther records) →
  load_library file_path w =
    (match mapM Books.from_dict records with
     | Ok _ => Raise TypeError
     | Raise e => Raise e
     end, w).
Proof.
  intros Hf.
  unfold load_library, try_except, open_read, mbind, io_bind, lift.
  rewrite Hf. cbn. rewrite mapM_objects_then_other.
  destruct (mapM Books.from_dict records) as [books | e] eqn:Hm; [done |].
  apply mapM_from_dict_raises in Hm. by destruct e.
Qed.

Lemma load_library_not_utf8 file_path w :
  files w !! file_path = Some NotUtf8 →
  load_library file_path w = (Raise UnicodeDecodeError, w).
Proof.
  intros Hf. unfold load_library, try_except, open_read, mbind, io_bind.
  by rewrite Hf.
Qed.

Lemma load_library_absent file_path w :
  files w !! file_path = None → load_library file_path w = (Ok [], w).
Proof.
  intros Hf. unfold load_library, try_except, open_read, mbind, io_bind.
  by rewrite Hf.
Qed.

Lemma load_library_not_json file_path w :
  files w !! file_path = Some NotJson → load_library file_path w = (Ok [], w).
Proof.
  intros Hf. unfold load_library, try_except, open_read, mbind, io_bind.
  by rewrite Hf.
Qed.

(** [load_library] only reads. *)
Lemma load_library_world file_path w : (load_library file_path w).2 = w.
Proof.
  destruct (files w !! file_path) as [[| | records | records] |] eqn:Hf.
  - by rewrite load_library_not_utf8.
  - by rewrite load_library_not_json.
  - by rewrite (load_library_array _ _ records).
  - by rewrite (load_library_other _ _ records).
  - by rewrite load_library_absent.
Qed.

Lemma load_library_Ok file_path w books :
  (load_library file_path w).1 = Ok books →
  load_library file_path w = (Ok books, w).
Proof.
  intros H. pose proof (load_library_world file_path w) as Hw.
  destruct (load_library file_path w); cbn in *; congruence.
Qed.

(** C6: [load_library] recovers from a missing file and from a file whose
    text is not JSON, which load as the empty list with the world untouched;
    it does not recover from a file whose bytes are not UTF-8 text: there
    [UnicodeDecodeError], which the [except] clause does not name, leaves
    the function. *)
Theorem load_library_unreadable_file file_path w :
  (files w !! file_path = None ∨ files w !! file_path = Some NotJson →
     load_library file_path w = (Ok [], w)) ∧
  (files w !! file_path = Some NotUtf8 →
     load_library file_path w = (Raise UnicodeDecodeError, w)).
Proof.
  split; [| apply load_library_not_utf8].
  intros [Hf | Hf]; [by apply load_library_absent | by apply load_library_not_json].
Qed.

Lemma load_library_unreadable_file_witness :
  files empty_world !! "library.json" = None ∧
  load_library "library.json" empty_world = (Ok [], empty_world) ∧
  files cp1251_world !! "library.json" = Some NotUtf8 ∧
  load_library "library.json" cp1251_world = (Raise UnicodeDecodeError, cp1251_world).
Proof.
  destruct (load_library_unreadable_file "library.json" empty_world) as [Hmissing _].
  destruct (load_library_unreadable_file "library.json" cp1251_world) as [_ Hbytes].
  split; [reflexivity |]. split; [apply Hmissing; left; reflexivity |].
  split; [reflexivity |]. apply Hbytes. reflexivity.
Defined.

(** A file that is JSON but holds a record that is not a book is another
    matter: the exception of [Book.from_dict] leaves [load_library]. *)
Example load_library_bad_record :
  load_library "library.json"
    (mkWorld {[ "library.json" := JsonArray [ {[ "id" := "1"; "title" := "T" ]} ] ]} [])
  = (Raise (KeyError "author"),
     mkWorld {[ "library.json" := JsonArray [ {[ "id" := "1"; "title" := "T" ]} ] ]} []).
Proof. vm_compute. reflexivity. Qed.

(** So is a file that is JSON but not an array of records. *)
Example load_library_array_of_number :
  load_library "library.json" number_world = (Raise TypeError, number_world).
Proof. vm_compute. reflexivity. Qed.

Lemma mapM_from_dict_to_dict books :
  mapM Books.from_dict (List.map Books.to_dict books) = Ok books.
Proof.
  induction books as [| [i t a y s] books IH]; cbn; [done |].
  by rewrite from_dict_fields, IH.
Qed.

Lemma save_library_eq books file_path w :
  save_library books file_path w =
    (Ok (), mkWorld (<[file_path := JsonArray (List.map Books.to_dict books)]> (files w))
                    (stdout w ++ ["Запись в " +:+ file_path +:+ "."])).
Proof. reflexivity. Qed.

(** What was saved is what is loaded next. *)
Lemma load_after_save books file_path w :
  load_library file_path (save_library books file_path w).2
    = (Ok books, (save_library books file_path w).2).
Proof.
  rewrite (load_library_array _ _ (List.map Books.to_dict books)).
  - by rewrite mapM_from_dict_to_dict.
  - rewrite save_library_eq. cbn. apply lookup_insert_eq.
Qed.


(** The file itself may change: numerals are rewritten in the form [str]
    gives them. *)
Example load_save_load_rewrites :
  let w := mkWorld {[ "library.json" := JsonArray
                        [ {[ "id" := "007"; "title" := "T"; "author" := "A";
                             "year" := " 1999"; "status" := "выдана" ]} ] ]} [] in
  (load_save_load "library.json" w).1 = Ok [Books.mkBook 7 "T" "A" 1999 "выдана"] ∧
  files (load_save_load "library.json" w).2 !! "library.json"
    = Some (JsonArray [ {[ "id" := "7"; "title" := "T"; "author" := "A";
                           "year" := "1999"; "status" := "выдана" ]} ]).
Proof. split; vm_compute; reflexivity. Qed.

End LoadSave.

(** ** Adding a book *)

Section Adding.

Import Library.

Implicit Types (w : world) (books : list Books.Book) (file_path : string).

Lemma fold_left_max_spec (xs : list Z) : ∀ x : Z,
  (fold_left Z.max xs x = x ∨ fold_left Z.max xs x ∈ xs) ∧
  x ≤ fold_left Z.max xs x ∧
  ∀ i, i ∈ xs → i ≤ fold_left Z.max xs x.
Proof.
  induction xs as [| y xs IH]; intros x; cbn.
  - split; [by left |]. split; [lia |]. intros i Hi. by apply elem_of_nil in Hi.
  - destruct (IH (Z.max x y)) as (Hin & Hle & Hub).
    split; [| split].
    + destruct Hin as [Hin | Hin]; [| right; by apply list_elem_of_further].
      rewrite Hin.
      destruct (Z.max_spec x y) as [[_ ->] | [_ ->]];
        [right; apply list_elem_of_here | by left].
    + lia.
    + intros i [-> | Hi]%elem_of_cons; [lia | by apply Hub].
Qed.

(** [max(ids, default=0)] is [0] on no ids and the greatest id otherwise. *)
Lemma max_default_spec (ids : list Z) :
  (ids = [] → Py.max_default 0 ids = 0) ∧
  (ids ≠ [] → Py.max_default 0 ids ∈ ids ∧ ∀ i, i ∈ ids → i ≤ Py.max_default 0 ids).
Proof.
  split; [by intros -> |].
  destruct ids as [| x xs]; [done | intros _]. cbn.
  destruct (fold_left_max_spec xs x) as (Hin & Hle & Hub).
  split.
  - destruct Hin as [-> | Hin]; [apply list_elem_of_here | by apply list_elem_of_further].
  - intros i [-> | Hi]%elem_of_cons; [done | by apply Hub].
Qed.

Lemma max_default_fresh (ids : list Z) i :
  i ∈ ids → i < Py.max_default 0 ids + 1.
Proof.
  intros Hi. destruct (max_default_spec ids) as [_ Hcons].
  destruct Hcons as [_ Hub]; [by intros -> ; apply elem_of_nil in Hi |].
  specialize (Hub i Hi). lia.
Qed.

Lemma add_book_eq title author year file_path w books :
  load_library file_path w = (Ok books, w) →
  let new_book :=
    Books.mkBook (Py.max_default 0 (List.map Books.id books) + 1)
                 title author year "в наличии" in
  add_book title author year file_path w =
    (Ok new_book, (save_library (books ++ [new_book]) file_path w).2).
Proof. intros Hload. unfold add_book, mbind, io_bind. by rewrite Hload. Qed.

(** C3: on a stored library [books], [add_book] returns the book whose id
    is [max(ids, default=0) + 1], that is one more than the greatest id, or
    [1] when there is none, and whose status is the default one; it saves
    [books] followed by that book, which is what the file then holds.  The
    id is [4] when the ids are 1 and 3. *)
Theorem add_book_spec title author year file_path w books :
  (load_library file_path w).1 = Ok books →
  let ids := List.map Books.id books in
  let new_book :=
    Books.mkBook (Py.max_default 0 ids + 1) title author year "в наличии" in
  let w' := (save_library (books ++ [new_book]) file_path w).2 in
  add_book title author year file_path w = (Ok new_book, w') ∧
  load_library file_path w' = (Ok (books ++ [new_book]), w') ∧
  (ids = [] → Books.id new_book = 1) ∧
  (ids ≠ [] → Books.id new_book - 1 ∈ ids ∧ ∀ i, i ∈ ids → i ≤ Books.id new_book - 1) ∧
  ((∀ i, i ∈ ids ↔ i = 1 ∨ i = 3) → Books.id new_book = 4).
Proof.
  intros Hload ids new_book w'. apply load_library_Ok in Hload.
  destruct (max_default_spec ids) as [Hnil Hcons].
  split; [by apply add_book_eq |].
  split; [apply load_after_save |].
  split; [| split].
  - intros Hids. cbn. rewrite (Hnil Hids). reflexivity.
  - intros Hids. cbn.
    replace (Py.max_default 0 ids + 1 - 1) with (Py.max_default 0 ids) by lia.
    by apply Hcons.
  - intros Hids. cbn.
    assert (ids ≠ []) as Hne.
    { intros Heq. assert (1 ∈ ids) as H1 by (apply Hids; by left).
      rewrite Heq in H1. by apply elem_of_nil in H1. }
    destruct (Hcons Hne) as [Hin Hub].
    apply Hids in Hin.
    assert (3 ≤ Py.max_default 0 ids) by (apply Hub, Hids; by right).
    lia.
Qed.

End Adding.

(** ** Removing a book *)

Section Removing.

Import Library.

Implicit Types (w : world) (books : list Books.Book) (file_path : string).

Lemma filter_length_le {A} (f : A → bool) (l : list A) :
  (length (List.filter f l) ≤ length l)%nat.
Proof. induction l as [| x l IH]; cbn; [lia |]. destruct (f x); cbn; lia. Qed.

Lemma filter_length_same {A} (f : A → bool) (l : list A) :
  length (List.filter f l) = length l ↔ ∀ x, x ∈ l → f x = true.
Proof.
  induction l as [| x l IH]; cbn.
  - split; [| done]. intros _ x Hx. by apply elem_of_nil in Hx.
  - pose proof (filter_length_le f l) as Hle.
    destruct (f x) eqn:Hfx; cbn.
    + split.
      * intros Hlen y [-> | Hy]%elem_of_cons; [done |]. apply IH; [lia | done].
      * intros Hall. f_equal. apply IH. intros y Hy. apply Hall.
        by apply list_elem_of_further.
    + split; [lia |]. intros Hall.
      specialize (Hall x (list_elem_of_here x l)). congruence.
Qed.

Lemma elem_of_filter_bool {A} (f : A → bool) (l : list A) x :
  x ∈ List.filter f l ↔ x ∈ l ∧ f x = true.
Proof. rewrite !list_elem_of_In. apply filter_In. Qed.

Lemma other_id_true book_id book :
  other_id book_id book = true ↔ Books.id book ≠ book_id.
Proof. unfold other_id. rewrite negb_true_iff. apply Z.eqb_neq. Qed.

Lemma no_id_all_other book_id books :
  book_id ∉ List.map Books.id books ↔
  ∀ book, book ∈ books → other_id book_id book = true.
Proof.
  split.
  - intros Hnot book Hin. apply other_id_true. intros <-.
    apply Hnot. apply list_elem_of_In, in_map. by apply list_elem_of_In.
  - intros Hall Hin. apply list_elem_of_In, in_map_iff in Hin as (book & Hid & Hin).
    apply list_elem_of_In, Hall, other_id_true in Hin. done.
Qed.

Lemma remove_book_absent book_id file_path w books :
  load_library file_path w = (Ok books, w) →
  book_id ∉ List.map Books.id books →
  remove_book book_id file_path w = (Ok false, w).
Proof.
  intros Hload Hnot. unfold remove_book, mbind, io_bind. rewrite Hload.
  fold (other_id book_id).
  pose proof (proj1 (no_id_all_other _ _) Hnot) as Hall.
  apply filter_length_same in Hall. by rewrite Hall, Nat.eqb_refl.
Qed.

Lemma remove_book_present book_id file_path w books :
  load_library file_path w = (Ok books, w) →
  book_id ∈ List.map Books.id books →
  remove_book book_id file_path w =
    (Ok true, (save_library (List.filter (other_id book_id) books) file_path w).2).
Proof.
  intros Hload Hin. unfold remove_book, mbind, io_bind. rewrite Hload.
  fold (other_id book_id).
  destruct (Nat.eqb_spec (length (List.filter (other_id book_id) books)) (length books))
    as [Hlen | Hlen]; [| done].
  pose proof (proj1 (filter_length_same _ _) Hlen) as Hall.
  by apply no_id_all_other in Hall.
Qed.

(** C4: on a stored library [books], [remove_book] returns [False] and
    leaves the world as it was, nothing saved, when no book has the id;
    otherwise it returns [True] after saving the books of [books] that have
    another id, in their order, which is what the file then holds. *)
Theorem remove_book_spec book_id file_path w books :
  (load_library file_path w).1 = Ok books →
  let kept := List.filter (other_id book_id) books in
  let w' := (save_library kept file_path w).2 in
  (book_id ∉ List.map Books.id books →
     remove_book book_id file_path w = (Ok false, w)) ∧
  (book_id ∈ List.map Books.id books →
     remove_book book_id file_path w = (Ok true, w') ∧
     load_library file_path w' = (Ok kept, w') ∧
     ∀ book, book ∈ kept ↔ book ∈ books ∧ Books.id book ≠ book_id).
Proof.
  intros Hload kept w'. apply load_library_Ok in Hload.
  split; [by apply remove_book_absent |].
  intros Hin. split; [by apply remove_book_present |].
  split; [apply load_after_save |].
  intros book. unfold kept. by rewrite elem_of_filter_bool, other_id_true.
Qed.

End Removing.

(** ** Changing the status of a book *)

Section UpdateStatus.

Import Library.

Implicit Types (w : world) (books : list Books.Book) (file_path : string).

Lemma in_list_spec (x : string) (xs : list string) :
  Py.in_list x xs = true ↔ x ∈ xs.
Proof.
  unfold Py.in_list. rewrite existsb_exists, list_elem_of_In. split.
  - intros (y & Hy & Heq). apply String.eqb_eq in Heq. by subst.
  - intros Hx. exists x. split; [done | apply String.eqb_refl].
Qed.

Lemma update_loop_no_match book_id status file_path w rest : ∀ seen,
  book_id ∉ List.map Books.id rest →
  update_loop book_id status file_path seen rest w = (Ok false, w).
Proof.
  induction rest as [| book rest IH]; intros seen Hnot; cbn; [done |].
  cbn in Hnot. apply not_elem_of_cons in Hnot as [Hne Hnot].
  destruct (Z.eqb_spec (Books.id book) book_id) as [Heq | _]; [by subst |].
  by apply IH.
Qed.

Lemma update_loop_first_match book_id status file_path w pre book post : ∀ seen,
  book_id ∉ List.map Books.id pre →
  Books.id book = book_id →
  update_loop book_id status file_path seen (pre ++ book :: post) w =
    (Ok true,
     (save_library (seen ++ pre ++ set_status book status :: post) file_path w).2).
Proof.
  induction pre as [| other pre IH]; intros seen Hnot Hid; cbn.
  - rewrite Hid, Z.eqb_refl. reflexivity.
  - cbn in Hnot. apply not_elem_of_cons in Hnot as [Hne Hnot].
    destruct (Z.eqb_spec (Books.id other) book_id) as [Heq | _]; [by subst |].
    rewrite (IH (seen ++ [other]) Hnot Hid). by rewrite <- app_assoc.
Qed.

Lemma update_book_status_invalid book_id status file_path w :
  status ∉ statuses →
  update_book_status book_id status file_path w = (Raise ValueError, w).
Proof.
  intros Hbad. unfold update_book_status. rewrite <- in_list_spec in Hbad.
  apply not_true_is_false in Hbad. by rewrite Hbad.
Qed.

Lemma update_book_status_valid book_id status file_path w books :
  status ∈ statuses →
  load_library file_path w = (Ok books, w) →
  update_book_status book_id status file_path w =
    update_loop book_id status file_path [] books w.
Proof.
  intros Hgood Hload. unfold update_book_status.
  apply in_list_spec in Hgood. rewrite Hgood. cbn.
  unfold mbind, io_bind. by rewrite Hload.
Qed.

(** C2: [update_book_status] raises [ValueError] and leaves the world as
    it was when the status is not one of the two values the code accepts,
    ["в наличии"] and ["выдана"].  With one of these and a stored library
    [books], it returns [True] after saving [books] in which the first book
    that has the id carries the new status, its other fields and the other
    books being as they were, and that list is what the file then holds; it
    returns [False] and leaves the world as it was, nothing saved, when no
    book has the id. *)
Theorem update_book_status_spec book_id status file_path w :
  (status ∉ ["в наличии"; "выдана"] →
     update_book_status book_id status file_path w = (Raise ValueError, w)) ∧
  (status ∈ ["в наличии"; "выдана"] →
     ∀ books, (load_library file_path w).1 = Ok books →
       (∀ pre book post,
          books = pre ++ book :: post →
          book_id ∉ List.map Books.id pre →
          Books.id book = book_id →
          let updated :=
            Books.mkBook (Books.id book) (Books.title book) (Books.author book)
                         (Books.year book) status in
          let books' := pre ++ updated :: post in
          let w' := (save_library books' file_path w).2 in
          update_book_status book_id status file_path w = (Ok true, w') ∧
          load_library file_path w' = (Ok books', w')) ∧
       (book_id ∉ List.map Books.id books →
          update_book_status book_id status file_path w = (Ok false, w))).
Proof.
  split; [apply update_book_status_invalid |].
  intros Hgood books Hload. apply load_library_Ok in Hload.
  rewrite (update_book_status_valid _ _ _ _ _ Hgood Hload).
  split.
  - intros pre book post -> Hnot Hid updated books' w'.
    split; [| apply load_after_save].
    apply (update_loop_first_match _ _ _ _ _ _ _ [] Hnot Hid).
  - intros Hnot. by apply update_loop_no_match.
Qed.

End UpdateStatus.

(** ** Searching *)

Section Searching.

Import Library.

Variable lower : string → string.

Implicit Types (w : world) (books : list Books.Book) (file_path : string).

Lemma filter_all {A} (l : list A) : List.filter (λ _, true) l = l.
Proof. induction l as [| x l IH]; cbn; congruence. Qed.

Lemma filter_filter_and {A} (f g : A → bool) (l : list A) :
  List.filter g (List.filter f l) = List.filter (λ x, f x && g x) l.
Proof.
  induction l as [| x l IH]; cbn; [done |].
  destruct (f x); cbn; [destruct (g x) |]; congruence.
Qed.

Lemma filter_if {A} (c : bool) (f : A → bool) (l : list A) :
  (if c then List.filter f l else l) = List.filter (λ x, negb c || f x) l.
Proof. destruct c; cbn; [done | by rewrite filter_all]. Qed.

Lemma contains_empty_needle hay : Py.contains "" hay = true.
Proof. by destruct hay. Qed.

Lemma truthy_str_false s : Py.truthy_str s = false → s = "".
Proof. by destruct s. Qed.

(** On an empty argument the substring test passes anyway. *)
Lemma substring_filter_given arg (s : string) :
  lower "" = "" →
  negb (Py.truthy_str arg) || Py.contains (lower arg) (lower s)
    = Py.contains (lower arg) (lower s).
Proof.
  intros Hl. destruct (Py.truthy_str arg) eqn:Ht; cbn; [done |].
  apply truthy_str_false in Ht as ->. by rewrite Hl, contains_empty_needle.
Qed.

(** What [search_books] computes: the stored books, in their order, that
    pass every filter given, where the lower-cased title argument has to
    occur in the lower-cased title, the same for the author, and the year
    has to be equal to the year argument, except that a year argument of
    [0] filters nothing. *)
Lemma search_books_filters file_path title author year w :
  lower "" = "" →
  search_books lower file_path title author year w =
    (List.filter (matches_filters lower title author year)
       <$> (load_library file_path w).1, w).
Proof.
  intros Hl. unfold search_books, mbind, io_bind.
  pose proof (load_library_world file_path w) as Hw.
  destruct (load_library file_path w) as [[books | e] w']; cbn in Hw; subst w';
    [| done].
  cbn. unfold mret, io_ret. f_equal. f_equal.
  destruct title as [title |], author as [author |], year as [year |];
    rewrite ?filter_if, ?filter_filter_and;
    first [apply filter_ext | rewrite <- (filter_all books) at 1; apply filter_ext];
    intros book; unfold matches_filters, Py.truthy_int;
    rewrite ?substring_filter_given, ?negb_involutive, ?andb_true_r, ?andb_assoc by done;
    reflexivity.
Qed.

Lemma io_bind_mret {A} (m : IO A) w : (x ← m; mret x) w = m w.
Proof. unfold mbind, io_bind. by destruct (m w) as [[a | e] w']. Qed.

(** C10: an empty title, an empty author and a year of [0] are treated as
    arguments that were not given; with all three, every stored book is
    returned. *)
Theorem search_books_falsy_arguments file_path title author year w :
  search_books lower file_path (Some "") author year w
    = search_books lower file_path None author year w ∧
  search_books lower file_path title (Some "") year w
    = search_books lower file_path title None year w ∧
  search_books lower file_path title author (Some 0) w
    = search_books lower file_path title author None w ∧
  search_books lower file_path (Some "") (Some "") (Some 0) w
    = load_library file_path w.
Proof.
  repeat split; try reflexivity.
  apply (io_bind_mret (load_library file_path)).
Qed.

End Searching.

Lemma sample_world_books :
  (Library.load_library "library.json" sample_world).1 = Ok [war_and_peace; warlock].
Proof. vm_compute. reflexivity. Qed.

(** C5, at a failing input: asked for the books of the year [0] in a
    library that holds a book of 1869 and a book of 1958, [search_books]
    returns both, where the books that satisfy the filter given are none. *)
Theorem search_books_year_zero_returns_all :
  (Library.load_library "library.json" sample_world).1
    = Ok [war_and_peace; warlock] ∧
  (Library.search_books Py.ascii_lower "library.json" None None (Some 0) sample_world).1
    = Ok [war_and_peace; warlock] ∧
  List.filter (matches_when_given Py.ascii_lower None None (Some 0))
    [war_and_peace; warlock] = [] ∧
  (Library.search_books Py.ascii_lower "library.json" None None (Some 1958) sample_world).1
    = Ok [warlock].
Proof. repeat split; vm_compute; reflexivity. Qed.

Example search_books_filters_example :
  Py.ascii_lower "" = "" ∧
  Library.search_books Py.ascii_lower "library.json" (Some "War") (Some "TOL") None sample_world
    = (List.filter (matches_filters Py.ascii_lower (Some "War") (Some "TOL") None)
         <$> (Library.load_library "library.json" sample_world).1, sample_world).
Proof.
  split; [reflexivity |].
  apply (search_books_filters Py.ascii_lower). reflexivity.
Qed.

Example search_war_tol :
  (Library.search_books Py.ascii_lower "library.json" (Some "War") (Some "TOL") None
     sample_world).1 = Ok [war_and_peace].
Proof. vm_compute. reflexivity. Qed.

Example search_year_1958 :
  (Library.search_books Py.ascii_lower "library.json" None None (Some 1958)
     sample_world).1 = Ok [warlock].
Proof. vm_compute. reflexivity. Qed.

(** ** The invariant of the stored collection *)

Section Invariant.

Import Library.

Implicit Types (w : world) (books : list Books.Book) (file_path : string).

Lemma first_with_id book_id books :
  book_id ∈ List.map Books.id books →
  ∃ pre book post,
    books = pre ++ book :: post ∧
    (book_id ∉ List.map Books.id pre) ∧
    Books.id book = book_id.
Proof.
  induction books as [| b books IH]; cbn; intros Hin.
  - by apply elem_of_nil in Hin.
  - destruct (decide (Books.id b = book_id)) as [Heq | Hne].
    + exists [], b, books. repeat split; [| done]. apply not_elem_of_nil.
    + apply elem_of_cons in Hin as [Heq | Hin]; [done |].
      destruct (IH Hin) as (pre & book & post & -> & Hnot & Hid).
      exists (b :: pre), book, post. repeat split; [| done].
      cbn. apply not_elem_of_cons. split; [congruence | done].
Qed.

Lemma invariant_add allowed books new_book :
  library_invariant allowed books →
  (∀ i, i ∈ List.map Books.id books → i < Books.id new_book) →
  Books.status new_book ∈ allowed →
  library_invariant allowed (books ++ [new_book]).
Proof.
  intros [Hdup Hst] Hfresh Hnew. split.
  - rewrite List.map_app. cbn. apply NoDup_app. split; [done |].
    split; [| apply NoDup_singleton].
    intros i Hi [= ->]%list_elem_of_singleton. specialize (Hfresh _ Hi). lia.
  - apply Forall_app. split; [done |]. by apply Forall_singleton.
Qed.

Lemma invariant_filter allowed (f : Books.Book → bool) books :
  library_invariant allowed books →
  library_invariant allowed (List.filter f books).
Proof.
  intros [Hdup Hst]. split.
  - induction books as [| b books IH]; cbn; [constructor |].
    cbn in Hdup. apply NoDup_cons in Hdup as [Hb Hdup].
    apply Forall_cons in Hst as [_ Hst].
    destruct (f b); cbn; [| by apply IH].
    apply NoDup_cons. split; [| by apply IH].
    intros Hin. apply Hb.
    apply list_elem_of_In, in_map_iff in Hin as (b' & Hid & Hin).
    apply filter_In in Hin as [Hin _].
    rewrite <- Hid. apply list_elem_of_In, in_map, Hin.
  - apply Forall_forall. intros b Hb.
    apply list_elem_of_In, filter_In in Hb as [Hb _].
    apply list_elem_of_In in Hb. revert b Hb. by apply Forall_forall.
Qed.

Lemma invariant_set_status allowed pre book post status :
  status ∈ allowed →
  library_invariant allowed (pre ++ book :: post) →
  library_invariant allowed (pre ++ set_status book status :: post).
Proof.
  intros Hs [Hdup Hst]. split.
  - rewrite List.map_app in *. exact Hdup.
  - apply Forall_app in Hst as [Hpre Hpost].
    apply Forall_cons in Hpost as [_ Hpost].
    apply Forall_app. split; [done |]. by apply Forall_cons.
Qed.

Lemma step_invariant file_path w w' books :
  step file_path w w' →
  load_library file_path w = (Ok books, w) →
  library_invariant statuses books →
  ∃ books', load_library file_path w' = (Ok books', w') ∧
            library_invariant statuses books'.
Proof.
  intros Hstep Hload Hinv.
  destruct Hstep as [title author year w | book_id w | book_id status w].
  - rewrite (add_book_eq _ _ _ _ _ _ Hload). cbn [snd].
    eexists. split; [apply load_after_save |].
    apply invariant_add; [done | | cbn; is_elem].
    intros i Hi. cbn. by apply max_default_fresh.
  - destruct (decide (book_id ∈ List.map Books.id books)) as [Hin | Hnot].
    + rewrite (remove_book_present _ _ _ _ Hload Hin). cbn [snd].
      eexists. split; [apply load_after_save |]. by apply invariant_filter.
    + rewrite (remove_book_absent _ _ _ _ Hload Hnot). cbn [snd]. eauto.
  - destruct (decide (status ∈ statuses)) as [Hs | Hs];
      [| rewrite (update_book_status_invalid _ _ _ _ Hs); cbn [snd]; eauto].
    rewrite (update_book_status_valid _ _ _ _ _ Hs Hload).
    destruct (decide (book_id ∈ List.map Books.id books)) as [Hin | Hnot];
      [| rewrite (update_loop_no_match _ _ _ _ _ [] Hnot); cbn [snd]; eauto].
    destruct (first_with_id _ _ Hin) as (pre & book & post & -> & Hpre & Hid).
    rewrite (update_loop_first_match _ _ _ _ _ _ _ [] Hpre Hid). cbn [snd app].
    eexists. split; [apply load_after_save |].
    by apply invariant_set_status.
Qed.

(** C8, as amended: in every world reached from an empty library through
    [add_book], [remove_book] and [update_book_status], the file loads as a
    list of books whose ids are pairwise distinct and whose statuses are
    among the two values the program uses. *)
Theorem reachable_invariant file_path w :
  reachable file_path w →
  ∃ books,
    load_library file_path w = (Ok books, w) ∧
    library_invariant statuses books.
Proof.
  induction 1 as [w Hempty | w w' _ (books & Hload & Hinv) Hstep].
  - exists []. split; [by apply load_library_Ok |].
    split; [constructor | constructor].
  - by apply (step_invariant file_path w w' books).
Qed.

End Invariant.

Lemma reachable_after_add :
  reachable "library.json"
    (Library.add_book "War and Peace" "Leo Tolstoy" 1869 "library.json" empty_world).2.
Proof.
  eapply reachable_step; [| apply step_add].
  apply reachable_empty. reflexivity.
Qed.

(** C8, as stated, fails: the book [add_book] stores has a status that is
    not one of the two spellings the specification gives. *)
Lemma spec_statuses_counterexample :
  let w := (Library.add_book "War and Peace" "Leo Tolstoy" 1869 "library.json" empty_world).2 in
  reachable "library.json" w ∧
  (Library.load_library "library.json" w).1 = Ok [war_and_peace] ∧
  ¬ library_invariant spec_statuses [war_and_peace].
Proof.
  split; [apply reachable_after_add |]. split; [vm_compute; reflexivity |].
  intros [_ Hst]. apply Forall_cons in Hst as [Hst _].
  revert Hst. cbn. is_not_elem.
Qed.

Lemma reachable_invariant_witness :
  reachable "library.json"
    (Library.add_book "War and Peace" "Leo Tolstoy" 1869 "library.json" empty_world).2 ∧
  ∃ books,
    Library.load_library "library.json"
      (Library.add_book "War and Peace" "Leo Tolstoy" 1869 "library.json" empty_world).2
      = (Ok books,
         (Library.add_book "War and Peace" "Leo Tolstoy" 1869 "library.json" empty_world).2) ∧
    library_invariant Library.statuses books.
Proof.
  split; [apply reachable_after_add |].
  apply (reachable_invariant "library.json"). apply reachable_after_add.
Defined.

(** ** The operations on a sample library *)

Lemma add_book_spec_witness :
  (Library.load_library "library.json" sample_world).1 = Ok [war_and_peace; warlock] ∧
  let dune := Books.mkBook 4 "Dune" "Frank Herbert" 1965 "в наличии" in
  let w' := (Library.save_library [war_and_peace; warlock; dune] "library.json" sample_world).2 in
  Library.add_book "Dune" "Frank Herbert" 1965 "library.json" sample_world = (Ok dune, w') ∧
  Library.load_library "library.json" w' = (Ok [war_and_peace; warlock; dune], w').
Proof.
  split; [exact sample_world_books |].
  destruct (add_book_spec "Dune" "Frank Herbert" 1965 "library.json" sample_world
              [war_and_peace; warlock] sample_world_books)
    as (Hadd & Hload & _).
  split; [exact Hadd | exact Hload].
Defined.

Lemma remove_book_spec_witness :
  (Library.load_library "library.json" sample_world).1 = Ok [war_and_peace; warlock] ∧
  Library.remove_book 2 "library.json" sample_world = (Ok false, sample_world) ∧
  let w' := (Library.save_library [warlock] "library.json" sample_world).2 in
  Library.remove_book 1 "library.json" sample_world = (Ok true, w') ∧
  Library.load_library "library.json" w' = (Ok [warlock], w').
Proof.
  split; [exact sample_world_books |].
  destruct (remove_book_spec 2 "library.json" sample_world
              [war_and_peace; warlock] sample_world_books) as [Hno _].
  destruct (remove_book_spec 1 "library.json" sample_world
              [war_and_peace; warlock] sample_world_books) as [_ Hyes].
  split.
  - apply Hno. cbn. is_not_elem.
  - destruct Hyes as (Hrem & Hload & _); [cbn; is_elem |].
    split; [exact Hrem | exact Hload].
Defined.

Lemma update_book_status_spec_witness :
  (Library.load_library "library.json" sample_world).1 = Ok [war_and_peace; warlock] ∧
  Library.update_book_status 1 "lost" "library.json" sample_world
    = (Raise ValueError, sample_world) ∧
  Library.update_book_status 2 "выдана" "library.json" sample_world
    = (Ok false, sample_world) ∧
  let lent := Books.mkBook 1 "War and Peace" "Leo Tolstoy" 1869 "выдана" in
  let w' := (Library.save_library [lent; warlock] "library.json" sample_world).2 in
  Library.update_book_status 1 "выдана" "library.json" sample_world = (Ok true, w') ∧
  Library.load_library "library.json" w' = (Ok [lent; warlock], w').
Proof.
  split; [exact sample_world_books |].
  destruct (update_book_status_spec 1 "lost" "library.json" sample_world)
    as [Hbad _].
  destruct (update_book_status_spec 2 "выдана" "library.json" sample_world)
    as [_ Hgood2].
  destruct (update_book_status_spec 1 "выдана" "library.json" sample_world)
    as [_ Hgood1].
  assert ("выдана" ∈ ["в наличии"; "выдана"]) as Hs by is_elem.
  split; [| split].
  - apply Hbad. is_not_elem.
  - apply (Hgood2 Hs _ sample_world_books). cbn. is_not_elem.
  - destruct (Hgood1 Hs _ sample_world_books) as [Hfound _].
    destruct (Hfound [] war_and_peace [warlock] eq_refl) as (Hupd & Hload);
      [cbn; is_not_elem | reflexivity |].
    split; [exact Hupd | exact Hload].
Defined.

(** * Further properties of the code *)

(** ** Reading and writing the file *)

Section ReadWrite.

Import Library.

Implicit Types (w : world) (books : list Books.Book) (file_path : string).

Lemma search_books_world lower file_path title author year w :
  (search_books lower file_path title author year w).2 = w.
Proof.
  pose proof (load_library_world file_path w) as Hw.
  unfold search_books, mbind, io_bind.
  by destruct (load_library file_path w) as [[books | e] w0].
Qed.

(** X1: [load_library], [list_books] and [search_books] only read: whatever
    they return or raise, no file is written and nothing is printed. *)
Theorem reading_leaves_world lower file_path title author year w :
  (load_library file_path w).2 = w ∧
  (list_books file_path w).2 = w ∧
  (search_books lower file_path title author year w).2 = w.
Proof.
  split; [apply load_library_world |]. split; [apply load_library_world |].
  apply search_books_world.
Qed.

Lemma mapM_from_dict_Ok records books :
  mapM Books.from_dict records = Ok books → Forall accepted records.
Proof.
  revert books. induction records as [| data records IH]; intros books; cbn;
    [constructor |].
  destruct (Books.from_dict data) as [book | e] eqn:Hd; cbn; [| done].
  destruct (mapM Books.from_dict records) as [books0 | e] eqn:Hm; cbn; [| done].
  intros _. constructor; [by exists book | by apply (IH books0)].
Qed.

Lemma mapM_from_dict_Raise records e :
  mapM Books.from_dict records = Raise e ↔
  ∃ pre data post,
    records = pre ++ data :: post ∧
    Forall accepted pre ∧
    Books.from_dict data = Raise e.
Proof.
  induction records as [| data records IH]; cbn.
  - split; [done |]. intros (pre & d & post & Heq & _). by destruct pre.
  - destruct (Books.from_dict data) as [book | e'] eqn:Hd; cbn.
    + destruct (mapM Books.from_dict records) as [books0 | e'] eqn:Hm; cbn.
      * split; [done |]. intros (pre & d & post & Heq & Hpre & Hbad).
        destruct pre as [| d0 pre]; cbn in Heq; injection Heq as -> ->;
          [congruence |].
        apply Forall_cons in Hpre as [_ Hpre].
        assert (Ok books0 = Raise e) as Habs; [| done].
        apply IH. by exists pre, d, post.
      * split.
        -- intros [= ->]. destruct (proj1 IH eq_refl) as (pre & d & post & -> & Hpre & Hbad).
           exists (data :: pre), d, post. split; [done |].
           split; [| done]. constructor; [by exists book | done].
        -- intros (pre & d & post & Heq & Hpre & Hbad).
           destruct pre as [| d0 pre]; cbn in Heq; injection Heq as -> ->;
             [congruence |].
           apply Forall_cons in Hpre as [_ Hpre]. f_equal.
           assert (Raise e' = @Raise (list Books.Book) e) as [= ->]; [| done].
           apply IH. by exists pre, d, post.
    + split.
      * intros [= ->]. exists [], data, records. by repeat split.
      * intros (pre & d & post & Heq & Hpre & Hbad).
        destruct pre as [| d0 pre]; cbn in Heq; injection Heq as -> ->;
          [congruence |].
        apply Forall_cons in Hpre as [[b Hb] _]. congruence.
Qed.

(** X2: when the file holds a JSON array of objects with string values, an
    exception leaves [load_library] exactly when [Book.from_dict] rejects
    one of the records: it is the exception of the first such record, a
    [KeyError] or a [ValueError], and the world is left as it was. *)
Theorem load_library_raises file_path w records e w' :
  files w !! file_path = Some (JsonArray records) →
  (load_library file_path w = (Raise e, w') ↔
   w' = w ∧
   ∃ pre data post,
     records = pre ++ data :: post ∧
     Forall accepted pre ∧
     Books.from_dict data = Raise e) ∧
  (load_library file_path w = (Raise e, w') → validation_error e).
Proof.
  intros Hf. rewrite (load_library_array _ _ _ Hf). split.
  - split.
    + intros [= Hm ->]. split; [done |]. by apply mapM_from_dict_Raise.
    + intros (-> & Hbad). f_equal. by apply mapM_from_dict_Raise.
  - intros [= Hm _]. by apply mapM_from_dict_raises in Hm.
Qed.

(** X3: what [save_library] writes is what [load_library] reads next, the
    same books in the same order, whatever the file held before. *)
Theorem save_then_load books file_path w :
  load_library file_path (save_library books file_path w).2
    = (Ok books, (save_library books file_path w).2).
Proof. apply load_after_save. Qed.

Lemma update_loop_world book_id status file_path w rest : ∀ seen,
  update_loop book_id status file_path seen rest w = (Ok false, w) ∨
  ∃ books,
    update_loop book_id status file_path seen rest w
      = (Ok true, (save_library books file_path w).2).
Proof.
  induction rest as [| book rest IH]; intros seen; cbn; [by left |].
  destruct (Books.id book =? book_id); [| apply IH].
  right. by eexists.
Qed.

(** Every operation either leaves the world as it was or saves once. *)
Lemma step_world file_path w w' :
  step file_path w w' →
  w' = w ∨ ∃ books, w' = (save_library books file_path w).2.
Proof.
  intros Hstep. pose proof (load_library_world file_path w) as Hw.
  destruct Hstep as [title author year w | book_id w | book_id status w].
  - unfold add_book, mbind, io_bind.
    destruct (load_library file_path w) as [[books | e] w0]; cbn in Hw; subst w0;
      [| by left].
    right. by eexists.
  - unfold remove_book, mbind, io_bind.
    destruct (load_library file_path w) as [[books | e] w0]; cbn in Hw; subst w0;
      [| by left].
    destruct (_ =? _)%nat; [by left |]. right. by eexists.
  - unfold update_book_status.
    destruct (negb _); [by left |]. unfold mbind, io_bind.
    destruct (load_library file_path w) as [[books | e] w0]; cbn in Hw; subst w0;
      [| by left].
    destruct (update_loop_world book_id status file_path w books []) as [-> | [bs ->]];
      [by left | right; by eexists].
Qed.

Lemma step_other_files file_path w w' other :
  step file_path w w' →
  other ≠ file_path →
  files w' !! other = files w !! other.
Proof.
  intros [-> | [books ->]]%step_world Hne; [done |].
  rewrite save_library_eq. cbn. by rewrite lookup_insert_ne.
Qed.


End ReadWrite.


(** ** How the operations compose *)

Section Composition.

Import Library.

Implicit Types (w : world) (books : list Books.Book) (file_path : string).

Lemma max_default_snoc (ids : list Z) :
  Py.max_default 0 (ids ++ [Py.max_default 0 ids + 1]) = Py.max_default 0 ids + 1.
Proof.
  set (n := Py.max_default 0 ids + 1).
  destruct (max_default_spec (ids ++ [n])) as [_ Hnew].
  destruct Hnew as [Hin Hub]; [by destruct ids |].
  assert (n ≤ Py.max_default 0 (ids ++ [n])) as Hn.
  { apply Hub, elem_of_app. right. apply list_elem_of_here. }
  apply elem_of_app in Hin as [Hin | Hin%list_elem_of_singleton]; [| done].
  pose proof (max_default_fresh ids _ Hin). unfold n in *. lia.
Qed.

Lemma filter_other_id_fresh book_id books :
  book_id ∉ List.map Books.id books →
  List.filter (other_id book_id) books = books.
Proof.
  intros Hnot. induction books as [| b books IH]; cbn; [done |].
  cbn in Hnot. apply not_elem_of_cons in Hnot as [Hne Hnot].
  assert (other_id book_id b = true) as -> by (apply other_id_true; congruence).
  by rewrite IH.
Qed.

Lemma max_default_not_in (ids : list Z) :
  Py.max_default 0 ids + 1 ∉ ids.
Proof. intros Hin. apply max_default_fresh in Hin. lia. Qed.

(** X5: two calls of [add_book] in a row hand out consecutive ids, and the
    file then holds the former books followed by the two new ones. *)
Theorem add_book_twice title1 author1 year1 title2 author2 year2 file_path w books :
  (load_library file_path w).1 = Ok books →
  let first := add_book title1 author1 year1 file_path w in
  let second := add_book title2 author2 year2 file_path first.2 in
  ∃ book1 book2,
    first.1 = Ok book1 ∧
    second.1 = Ok book2 ∧
    Books.id book2 = Books.id book1 + 1 ∧
    (load_library file_path second.2).1 = Ok (books ++ [book1; book2]).
Proof.
  intros Hload first second. apply load_library_Ok in Hload.
  pose proof (add_book_eq title1 author1 year1 _ _ _ Hload) as H1. cbn zeta in H1.
  set (book1 := Books.mkBook _ _ _ _ _) in H1.
  pose proof (load_after_save (books ++ [book1]) file_path w) as Hload1.
  pose proof (add_book_eq title2 author2 year2 _ _ _ Hload1) as H2. cbn zeta in H2.
  set (book2 := Books.mkBook _ _ _ _ _) in H2.
  exists book1, book2. unfold second, first. rewrite H1. cbn [fst snd]. rewrite H2.
  cbn [fst snd]. split; [done |]. split; [done |]. split.
  - unfold book2, book1. cbn. rewrite List.map_app. cbn. by rewrite max_default_snoc.
  - rewrite load_after_save. cbn. by rewrite <- app_assoc.
Qed.

(** X6: removing the book [add_book] has just returned gives back the
    library as it was loaded before the addition. *)
Theorem remove_added_book title author year file_path w books :
  (load_library file_path w).1 = Ok books →
  let added := add_book title author year file_path w in
  ∃ book,
    added.1 = Ok book ∧
    (remove_book (Books.id book) file_path added.2).1 = Ok true ∧
    (load_library file_path (remove_book (Books.id book) file_path added.2).2).1
      = Ok books.
Proof.
  intros Hload added. apply load_library_Ok in Hload.
  pose proof (add_book_eq title author year _ _ _ Hload) as H1. cbn zeta in H1.
  set (book := Books.mkBook _ _ _ _ _) in H1.
  pose proof (load_after_save (books ++ [book]) file_path w) as Hload1.
  exists book. unfold added. rewrite H1. cbn [fst snd]. split; [done |].
  rewrite (remove_book_present _ _ _ _ Hload1).
  - cbn [fst snd]. split; [done |]. rewrite load_after_save. cbn [fst]. f_equal.
    rewrite List.filter_app.
    change (List.filter (other_id (Books.id book)) [book])
      with (if other_id (Books.id book) book then [book] else []).
    assert (other_id (Books.id book) book = false) as ->.
    { unfold other_id. by rewrite Z.eqb_refl. }
    rewrite filter_other_id_fresh, app_nil_r; [done |].
    apply max_default_not_in.
  - rewrite List.map_app. apply elem_of_app. right. apply list_elem_of_here.
Qed.

Lemma filter_other_id_gone book_id books :
  book_id ∉ List.map Books.id (List.filter (other_id book_id) books).
Proof.
  intros Hin. apply list_elem_of_In, in_map_iff in Hin as (b & Hid & Hb).
  apply filter_In in Hb as [_ Hb]. by apply other_id_true in Hb.
Qed.

(** X7: once [remove_book] has run, no stored book has the id any more: a
    second call with the same id returns [False] and changes nothing. *)
Theorem remove_book_twice book_id file_path w books :
  (load_library file_path w).1 = Ok books →
  let w1 := (remove_book book_id file_path w).2 in
  remove_book book_id file_path w1 = (Ok false, w1).
Proof.
  intros Hload w1. apply load_library_Ok in Hload. unfold w1.
  destruct (decide (book_id ∈ List.map Books.id books)) as [Hin | Hnot].
  - rewrite (remove_book_present _ _ _ _ Hload Hin). cbn [snd].
    apply (remove_book_absent _ _ _ _ (load_after_save _ _ _)).
    apply filter_other_id_gone.
  - rewrite (remove_book_absent _ _ _ _ Hload Hnot). cbn [snd].
    by apply (remove_book_absent _ _ _ books).
Qed.

(** X8: when the stored ids are pairwise distinct, [remove_book] takes out
    the one book with the id and keeps the others in their order. *)
Theorem remove_book_unique book_id file_path w pre book post :
  (load_library file_path w).1 = Ok (pre ++ book :: post) →
  NoDup (List.map Books.id (pre ++ book :: post)) →
  Books.id book = book_id →
  remove_book book_id file_path w
    = (Ok true, (save_library (pre ++ post) file_path w).2).
Proof.
  intros Hload Hdup Hid. apply load_library_Ok in Hload.
  rewrite List.map_app in Hdup. cbn in Hdup.
  apply NoDup_app in Hdup as (_ & Hpre & Hpost).
  apply NoDup_cons in Hpost as [Hpost _].
  rewrite (remove_book_present _ _ _ _ Hload).
  - rewrite List.filter_app. cbn [List.filter].
    assert (other_id book_id book = false) as ->.
    { unfold other_id. by rewrite Hid, Z.eqb_refl. }
    rewrite !filter_other_id_fresh; [done | by rewrite <- Hid |].
    intros Hin. apply (Hpre _ Hin). rewrite Hid. apply list_elem_of_here.
  - rewrite List.map_app. apply elem_of_app. right. rewrite <- Hid.
    apply list_elem_of_here.
Qed.

End Composition.

(** ** What [update_book_status] and [search_books] keep *)

Section Keeping.

Import Library.

Implicit Types (w : world) (books : list Books.Book) (file_path : string).

Lemma Forall2_same {A} (R : A → A → Prop) (l : list A) :
  (∀ x, R x x) → Forall2 R l l.
Proof. intros HR. induction l; constructor; auto. Qed.

(** The world after [update_book_status] on a stored library, and what it
    holds. *)
Lemma update_book_status_after book_id status file_path w books :
  load_library file_path w = (Ok books, w) →
  let w' := (update_book_status book_id status file_path w).2 in
  w' = w ∨
  ∃ pre book post,
    books = pre ++ book :: post ∧
    (book_id ∉ List.map Books.id pre) ∧
    Books.id book = book_id ∧
    status ∈ statuses ∧
    w' = (save_library (pre ++ set_status book status :: post) file_path w).2.
Proof.
  intros Hload w'. unfold w'.
  destruct (decide (status ∈ statuses)) as [Hs | Hs];
    [| left; by rewrite update_book_status_invalid].
  rewrite (update_book_status_valid _ _ _ _ _ Hs Hload).
  destruct (decide (book_id ∈ List.map Books.id books)) as [Hin | Hnot];
    [| left; by rewrite update_loop_no_match].
  destruct (first_with_id _ _ Hin) as (pre & book & post & -> & Hpre & Hid).
  right. exists pre, book, post.
  by rewrite (update_loop_first_match _ _ _ _ _ _ _ [] Hpre Hid).
Qed.

(** X9: whatever its arguments, [update_book_status] on a stored library
    leaves a file with the same books in the same order, each with its id,
    title, author and year; at most the status changes, to the one given,
    and only on a book with the id given. *)
Theorem update_book_status_keeps book_id status file_path w books :
  (load_library file_path w).1 = Ok books →
  ∃ books',
    (load_library file_path (update_book_status book_id status file_path w).2).1
      = Ok books' ∧
    Forall2 (λ book' book,
               without_status book' = without_status book ∧
               (Books.status book' = Books.status book ∨
                Books.id book = book_id ∧ Books.status book' = status))
            books' books.
Proof.
  intros Hload. apply load_library_Ok in Hload.
  destruct (update_book_status_after book_id status _ _ _ Hload)
    as [-> | (pre & book & post & -> & _ & Hid & _ & ->)].
  - exists books. rewrite Hload. split; [done |].
    apply Forall2_same. intros b. split; [done | by left].
  - eexists. rewrite load_after_save. split; [done |].
    apply Forall2_app; [apply Forall2_same; intros b; split; [done | by left] |].
    constructor; [split; [done | by right] |].
    apply Forall2_same. intros b. split; [done | by left].
Qed.

Lemma set_status_twice book status :
  set_status (set_status book status) status = set_status book status.
Proof. done. Qed.

(** X10: asking twice for the same change of status gives the same answer
    and leaves the same files as asking once. *)
Theorem update_book_status_twice book_id status file_path w books :
  (load_library file_path w).1 = Ok books →
  let once := update_book_status book_id status file_path w in
  let twice := update_book_status book_id status file_path once.2 in
  twice.1 = once.1 ∧ files twice.2 = files once.2.
Proof.
  intros Hload once twice. apply load_library_Ok in Hload. unfold twice, once.
  destruct (decide (status ∈ statuses)) as [Hs | Hs];
    [| by rewrite !update_book_status_invalid].
  rewrite (update_book_status_valid _ _ _ _ _ Hs Hload).
  destruct (decide (book_id ∈ List.map Books.id books)) as [Hin | Hnot].
  - destruct (first_with_id _ _ Hin) as (pre & book & post & -> & Hpre & Hid).
    rewrite (update_loop_first_match _ _ _ _ _ _ _ [] Hpre Hid). cbn [fst snd app].
    rewrite (update_book_status_valid _ _ _ _ _ Hs (load_after_save _ _ _)).
    rewrite (update_loop_first_match _ _ _ _ _ _ _ [] Hpre); [| done].
    cbn [fst snd app]. split; [done |].
    rewrite set_status_twice, !save_library_eq. cbn. apply insert_insert_eq.
  - rewrite (update_loop_no_match _ _ _ _ _ [] Hnot). cbn [fst snd].
    rewrite (update_book_status_valid _ _ _ _ _ Hs Hload).
    by rewrite (update_loop_no_match _ _ _ _ _ [] Hnot).
Qed.

Lemma filter_sublist {A} (f : A → bool) (l : list A) :
  sublist (List.filter f l) l.
Proof.
  induction l as [| x l IH]; cbn; [constructor |].
  destruct (f x); by constructor.
Qed.

Lemma filter_sublist_mono {A} (f : A → bool) (l1 l2 : list A) :
  sublist l1 l2 → sublist (List.filter f l1) (List.filter f l2).
Proof.
  induction 1 as [| x l1 l2 _ IH | x l1 l2 _ IH]; cbn; [constructor | |].
  - destruct (f x); [by constructor | done].
  - destruct (f x); [by constructor | done].
Qed.

Lemma filter_gate_sublist {A B} (arg : option B) (gate : B → bool)
    (f : B → A → bool) (l1 l2 : list A) :
  sublist l1 l2 →
  sublist
    match arg with
    | Some x => if gate x then List.filter (f x) l1 else l1
    | None => l1
    end
    l2.
Proof.
  intros Hsub. destruct arg as [x |]; [| done].
  destruct (gate x); [| done].
  transitivity l1; [apply filter_sublist | done].
Qed.

Lemma filter_gate_mono {A B} (arg : option B) (gate : B → bool)
    (f : B → A → bool) (l1 l2 : list A) :
  sublist l1 l2 →
  sublist
    match arg with
    | Some x => if gate x then List.filter (f x) l1 else l1
    | None => l1
    end
    match arg with
    | Some x => if gate x then List.filter (f x) l2 else l2
    | None => l2
    end.
Proof.
  intros Hsub. destruct arg as [x |]; [| done].
  destruct (gate x); [by apply filter_sublist_mono | done].
Qed.

(** X11: [search_books] returns stored books only, each at most as often
    as it is stored and in the stored order; and giving one more filter
    never brings a book that the search without it does not return. *)
Theorem search_books_narrows lower file_path title author year w books :
  (list_books file_path w).1 = Ok books →
  ∃ found by_author_year by_title_year by_title_author,
    (search_books lower file_path title author year w).1 = Ok found ∧
    (search_books lower file_path None author year w).1 = Ok by_author_year ∧
    (search_books lower file_path title None year w).1 = Ok by_title_year ∧
    (search_books lower file_path title author None w).1 = Ok by_title_author ∧
    sublist found books ∧
    sublist found by_author_year ∧
    sublist found by_title_year ∧
    sublist found by_title_author.
Proof.
  intros Hload. apply load_library_Ok in Hload.
  unfold search_books, mbind, io_bind. unfold list_books in Hload. rewrite Hload.
  cbn [fst]. do 4 eexists. do 4 (split; [reflexivity |]).
  split; [| split; [| split]].
  - by do 3 apply filter_gate_sublist.
  - do 2 apply filter_gate_mono. by apply filter_gate_sublist.
  - apply filter_gate_mono. apply filter_gate_sublist. by apply filter_gate_mono.
  - apply filter_gate_sublist. by do 2 apply filter_gate_mono.
Qed.

End Keeping.

(** ** More on records *)

Section Records.

Implicit Types (data : gmap string string) (book : Books.Book).

(** X12: [Book.from_dict] looks at the five keys it reads and at nothing
    else: two records that agree on them give the same book or the same
    exception, so further keys of a record are ignored. *)
Theorem from_dict_reads_required_keys data1 data2 :
  (∀ key, key ∈ required_keys → data1 !! key = data2 !! key) →
  Books.from_dict data1 = Books.from_dict data2.
Proof.
  intros Hsame. unfold Books.from_dict, Books.getitem.
  rewrite (Hsame "id"), (Hsame "title"), (Hsame "author"), (Hsame "year"),
    (Hsame "status") by is_elem.
  reflexivity.
Qed.

Lemma from_dict_reads_required_keys_witness :
  Books.from_dict (<["shelf" := "B2"]> (Books.to_dict war_and_peace))
    = Books.from_dict (Books.to_dict war_and_peace).
Proof.
  apply from_dict_reads_required_keys. intros key Hkey.
  apply lookup_insert_ne. intros <-. revert Hkey. is_not_elem.
Defined.

(** X13: which exception [Book.from_dict] raises.  A [KeyError] names a
    key that is missing from the record; a [ValueError] means that [int]
    rejects the [id] or the [year]; and the [id] is looked at first: a
    record without it gives [KeyError] for [id], and one whose [id] is not a
    numeral gives [ValueError], whatever its other entries. *)
Theorem from_dict_exception data :
  (∀ key, Books.from_dict data = Raise (KeyError key) →
          key ∈ required_keys ∧ data !! key = None) ∧
  (Books.from_dict data = Raise ValueError →
     not_int_parseable data "id" ∨ not_int_parseable data "year") ∧
  (data !! "id" = None → Books.from_dict data = Raise (KeyError "id")) ∧
  (not_int_parseable data "id" → Books.from_dict data = Raise ValueError).
Proof.
  unfold Books.from_dict, Books.getitem, Books.int, not_int_parseable.
  destruct (data !! "id") as [vi |] eqn:Hi; cbn; [| exception_case].
  destruct (Py.int vi) as [i |] eqn:Hpi; cbn; [| exception_case].
  destruct (data !! "title") as [vt |] eqn:Ht; cbn; [| exception_case].
  destruct (data !! "author") as [va |] eqn:Ha; cbn; [| exception_case].
  destruct (data !! "year") as [vy |] eqn:Hy; cbn; [| exception_case].
  destruct (Py.int vy) as [y |] eqn:Hpy; cbn; [| exception_case].
  destruct (data !! "status") as [vs |] eqn:Hs; cbn; exception_case.
Qed.

Lemma to_dict_dom book :
  dom (Books.to_dict book) = list_to_set required_keys.
Proof.
  unfold Books.to_dict, required_keys. rewrite !dom_insert_L, dom_singleton_L.
  cbn. set_solver.
Qed.

(** X14: the record of a book has the five keys and no other, is accepted
    by [Book.from_dict], and belongs to that book only: two books with the
    same record are the same book. *)
Theorem to_dict_faithful book1 book2 :
  dom (Books.to_dict book1) = list_to_set required_keys ∧
  ¬ invalid_record (Books.to_dict book1) ∧
  (Books.to_dict book1 = Books.to_dict book2 → book1 = book2).
Proof.
  split; [apply to_dict_dom |]. split.
  - pose proof (from_dict_cases (Books.to_dict book1)) as Hc.
    destruct book1 as [i t a y s]. rewrite from_dict_fields in Hc. apply Hc.
  - intros Heq.
    assert (Books.from_dict (Books.to_dict book1) = Books.from_dict (Books.to_dict book2))
      as Hfd by by rewrite Heq.
    destruct book1, book2. rewrite !from_dict_fields in Hfd. congruence.
Qed.

End Records.

(** ** The ids that [add_book] hands out *)

Section Ids.

Import Library.

Implicit Types (w : world) (books : list Books.Book) (file_path : string).

Lemma max_default_positive (ids : list Z) :
  Forall (λ i, 1 ≤ i) ids → 0 ≤ Py.max_default 0 ids.
Proof.
  intros Hpos. destruct (max_default_spec ids) as [Hnil Hcons].
  destruct ids as [| i ids]; [by rewrite Hnil |].
  destruct Hcons as [Hin _]; [done |].
  apply (proj1 (Forall_forall _ _) Hpos) in Hin. lia.
Qed.

Lemma positive_ids_map books :
  positive_ids books ↔ Forall (λ i, 1 ≤ i) (List.map Books.id books).
Proof.
  unfold positive_ids. induction books as [| b books IH]; cbn.
  - split; constructor.
  - rewrite !Forall_cons. by rewrite IH.
Qed.

Lemma step_positive_ids file_path w w' books :
  step file_path w w' →
  load_library file_path w = (Ok books, w) →
  positive_ids books →
  ∃ books', load_library file_path w' = (Ok books', w') ∧ positive_ids books'.
Proof.
  intros Hstep Hload Hpos.
  destruct Hstep as [title author year w | book_id w | book_id status w].
  - rewrite (add_book_eq _ _ _ _ _ _ Hload). cbn [snd].
    eexists. split; [apply load_after_save |].
    apply Forall_app. split; [done |]. apply Forall_singleton. cbn.
    apply positive_ids_map, max_default_positive in Hpos. lia.
  - destruct (decide (book_id ∈ List.map Books.id books)) as [Hin | Hnot].
    + rewrite (remove_book_present _ _ _ _ Hload Hin). cbn [snd].
      eexists. split; [apply load_after_save |].
      apply Forall_forall. intros b [Hb _]%elem_of_filter_bool.
      by apply (proj1 (Forall_forall _ _) Hpos).
    + rewrite (remove_book_absent _ _ _ _ Hload Hnot). cbn [snd]. eauto.
  - destruct (update_book_status_after book_id status _ _ _ Hload)
      as [-> | (pre & book & post & -> & _ & _ & _ & ->)]; [eauto |].
    eexists. split; [apply load_after_save |].
    apply Forall_app in Hpos as [Hpre Hpost].
    apply Forall_cons in Hpost as [Hbook Hpost].
    apply Forall_app. split; [done |]. by apply Forall_cons.
Qed.

(** X15: in every world reached from an empty library through [add_book],
    [remove_book] and [update_book_status], every stored id is at least 1. *)
Theorem reachable_positive_ids file_path w :
  reachable file_path w →
  ∃ books,
    load_library file_path w = (Ok books, w) ∧
    positive_ids books.
Proof.
  induction 1 as [w Hempty | w w' _ (books & Hload & Hpos) Hstep].
  - exists []. split; [by apply load_library_Ok | constructor].
  - by apply (step_positive_ids file_path w w' books).
Qed.

(** X16: ids are handed out again.  In a library whose ids are at least 1,
    once the books with the greatest id are removed, the next [add_book]
    returns an id between 1 and the id that was removed. *)
Theorem add_after_remove_greatest title author year file_path w books :
  (load_library file_path w).1 = Ok books →
  books ≠ [] →
  positive_ids books →
  let greatest := Py.max_default 0 (List.map Books.id books) in
  let w' := (remove_book greatest file_path w).2 in
  ∃ book,
    (add_book title author year file_path w').1 = Ok book ∧
    1 ≤ Books.id book ≤ greatest.
Proof.
  intros Hload Hne Hpos greatest w'. apply load_library_Ok in Hload.
  destruct (max_default_spec (List.map Books.id books)) as [_ Hmax].
  destruct Hmax as [Hin Hub]; [by destruct books |]. fold greatest in Hin, Hub.
  unfold w'. rewrite (remove_book_present _ _ _ _ Hload Hin). cbn [snd].
  rewrite (add_book_eq _ _ _ _ _ _ (load_after_save _ _ _)). cbn [fst].
  eexists. split; [done |]. cbn [Books.id].
  set (kept := List.filter (other_id greatest) books).
  assert (positive_ids kept) as Hkept.
  { apply Forall_forall. intros b [Hb _]%elem_of_filter_bool.
    by apply (proj1 (Forall_forall _ _) Hpos). }
  split.
  - apply positive_ids_map, max_default_positive in Hkept. lia.
  - destruct (max_default_spec (List.map Books.id kept)) as [Hnil Hcons].
    destruct kept as [| b kept'] eqn:Hk.
    + rewrite Hnil by done.
      apply positive_ids_map in Hpos.
      apply (proj1 (Forall_forall _ _) Hpos) in Hin. lia.
    + destruct Hcons as [Hin' _]; [done |]. rewrite <- Hk in *.
      assert (Py.max_default 0 (List.map Books.id kept) ≠ greatest) as Hneq.
      { intros Heq. rewrite Heq in Hin'. by apply filter_other_id_gone in Hin'. }
      assert (Py.max_default 0 (List.map Books.id kept) ≤ greatest); [| lia].
      apply Hub. apply list_elem_of_In, in_map_iff in Hin' as (b' & <- & Hb').
      apply filter_In in Hb' as [Hb' _]. by apply list_elem_of_In, in_map.
Qed.

(** X17: [add_book] on a file it cannot read.  A file that is missing, or
    whose text is not JSON, counts as an empty library: the new book gets
    the id [1] and the file then holds that book alone, whatever text it
    held before.  A file whose bytes are not UTF-8 text makes [add_book]
    raise [UnicodeDecodeError], and the world is left as it was. *)
Theorem add_book_on_unreadable_file title author year file_path w :
  (files w !! file_path = None ∨ files w !! file_path = Some NotJson →
     let book := Books.mkBook 1 title author year "в наличии" in
     (add_book title author year file_path w).1 = Ok book ∧
     files (add_book title author year file_path w).2
       = <[file_path := JsonArray [Books.to_dict book]]> (files w)) ∧
  (files w !! file_path = Some NotUtf8 →
     add_book title author year file_path w = (Raise UnicodeDecodeError, w)).
Proof.
  split.
  - intros Hf book.
    assert (load_library file_path w = (Ok [], w)) as Hload
      by (destruct Hf; [by apply load_library_absent | by apply load_library_not_json]).
    by rewrite (add_book_eq _ _ _ _ _ _ Hload).
  - intros Hf. unfold add_book, mbind, io_bind.
    by rewrite (load_library_not_utf8 _ _ Hf).
Qed.

End Ids.

(** ** The console part *)

(** The six entries of [method_dict]. *)
Lemma method_dict_cases lower repr_dict choice :
  match Cli.method_dict lower repr_dict !! choice with
  | Some method =>
      choice = "1" ∧ method = Cli.add_book_to_library repr_dict ∨
      choice = "2" ∧ method = Cli.del_book ∨
      choice = "3" ∧ method = Cli.search_for_book lower repr_dict ∨
      choice = "4" ∧ method = Cli.show_all_books repr_dict ∨
      choice = "5" ∧ method = Cli.change_status_of_book ∨
      choice = "6" ∧ method = Cli.exit_library
  | None => choice ∉ ["1"; "2"; "3"; "4"; "5"; "6"]
  end.
Proof.
  unfold Cli.method_dict.
  destruct (decide (choice = "1")) as [-> | H1]; [rewrite lookup_insert_eq; tauto |].
  rewrite lookup_insert_ne by done.
  destruct (decide (choice = "2")) as [-> | H2]; [rewrite lookup_insert_eq; tauto |].
  rewrite lookup_insert_ne by done.
  destruct (decide (choice = "3")) as [-> | H3]; [rewrite lookup_insert_eq; tauto |].
  rewrite lookup_insert_ne by done.
  destruct (decide (choice = "4")) as [-> | H4]; [rewrite lookup_insert_eq; tauto |].
  rewrite lookup_insert_ne by done.
  destruct (decide (choice = "5")) as [-> | H5]; [rewrite lookup_insert_eq; tauto |].
  rewrite lookup_insert_ne by done.
  destruct (decide (choice = "6")) as [-> | H6]; [rewrite lookup_singleton_eq; tauto |].
  rewrite lookup_singleton_ne by done.
  intros Hin. repeat (apply elem_of_cons in Hin as [-> | Hin]; [done |]).
  by apply elem_of_nil in Hin.
Qed.

Section KeepsRules.

Import Cli.

(** The rules hold for any relation between consoles that is reflexive and
    transitive, that [input] respects, that a call leaving the files alone
    respects, and that a call of a mutating operation on the library file
    respects. *)
Context (R : console → console → Prop) `{!PreOrder R}.

Hypothesis R_input : ∀ prompt, keeps R (input prompt).
Hypothesis R_quiet : ∀ A (m : Library.IO A),
  (∀ w, Library.files (m w).2 = Library.files w) → keeps R (call m).
Hypothesis R_step : ∀ A (m : Library.IO A),
  (∀ w, step LIBRARY_FILE w (m w).2) → keeps R (call m).
Hypothesis R_final : keeps R finally_block.

Variable lower : string → string.
Variable repr_dict : gmap string string → string.
Variable exception_text : raised → string.

Lemma keeps_ret {A} (a : A) : keeps R (mret a).
Proof. intros c. reflexivity. Qed.

Lemma keeps_raise {A} r : keeps R (@raise A r).
Proof. intros c. reflexivity. Qed.

Lemma keeps_bind {A B} (m : CLI A) (f : A → CLI B) :
  keeps R m → (∀ a, keeps R (f a)) → keeps R (m ≫= f).
Proof.
  intros Hm Hf c. unfold mbind, cli_bind. specialize (Hm c).
  destruct (m c) as [[a | r] c1]; [| done].
  transitivity c1; [done | apply Hf].
Qed.

Lemma keeps_try_except {A} (body : CLI A) handler :
  keeps R body →
  (∀ r handle, handler r = Some handle → keeps R handle) →
  keeps R (try_except body handler).
Proof.
  intros Hb Hh c. unfold try_except. specialize (Hb c).
  destruct (body c) as [[a | r] c1]; [done |].
  destruct (handler r) as [handle |] eqn:Hr; [| done].
  transitivity c1; [done | by apply (Hh r)].
Qed.

Lemma keeps_try_finally {A} (body : CLI A) final :
  keeps R body → keeps R final → keeps R (try_finally body final).
Proof.
  intros Hb Hf c. unfold try_finally. specialize (Hb c).
  destruct (body c) as [out c1]. specialize (Hf c1).
  destruct (final c1) as [[u | r] c2]; by transitivity c1.
Qed.

Lemma keeps_print line : keeps R (print line).
Proof. by apply R_quiet. Qed.

Lemma keeps_int s : keeps R (int s).
Proof. by apply R_quiet. Qed.

Lemma keeps_print_books books : keeps R (print_books repr_dict books).
Proof.
  induction books as [| book books IH]; cbn; [apply keeps_ret |].
  apply keeps_bind; [apply keeps_print | done].
Qed.

Lemma keeps_add_book_to_library : keeps R (add_book_to_library repr_dict).
Proof.
  unfold add_book_to_library.
  apply keeps_bind; [apply R_input | intros title].
  apply keeps_bind; [apply R_input | intros author].
  apply keeps_bind; [apply keeps_bind; [apply R_input | apply keeps_int] | intros year].
  apply keeps_bind; [| intros book; apply keeps_print].
  apply R_step. intros w. apply step_add.
Qed.

Lemma keeps_del_book : keeps R del_book.
Proof.
  unfold del_book.
  apply keeps_bind; [apply keeps_bind; [apply R_input | apply keeps_int] | intros book_id].
  apply keeps_bind; [| intros []; apply keeps_print].
  apply R_step. intros w. apply step_remove.
Qed.

Lemma keeps_search_for_book : keeps R (search_for_book lower repr_dict).
Proof.
  unfold search_for_book.
  apply keeps_bind; [apply R_input | intros title].
  apply keeps_bind; [apply R_input | intros author].
  apply keeps_bind; [apply R_input | intros year_input].
  apply keeps_bind.
  { destruct (Py.truthy_str year_input); [| apply keeps_ret].
    apply keeps_bind; [apply keeps_int | intros y; apply keeps_ret]. }
  intros year. apply keeps_bind.
  - apply R_quiet. intros w. f_equal. apply search_books_world.
  - intros [| book results]; [apply keeps_print | apply keeps_print_books].
Qed.

Lemma keeps_show_all_books : keeps R (show_all_books repr_dict).
Proof.
  unfold show_all_books. apply keeps_bind.
  - apply R_quiet. intros w. f_equal. apply load_library_world.
  - intros [| book books]; [apply keeps_print | apply keeps_print_books].
Qed.

Lemma keeps_change_status_of_book : keeps R change_status_of_book.
Proof.
  unfold change_status_of_book.
  apply keeps_bind; [apply keeps_bind; [apply R_input | apply keeps_int] | intros book_id].
  apply keeps_bind; [apply R_input | intros status].
  apply keeps_bind; [| intros []; apply keeps_print].
  apply R_step. intros w. apply step_update.
Qed.

Lemma keeps_exit_library : keeps R exit_library.
Proof.
  unfold exit_library, quit.
  apply keeps_bind; [apply keeps_print | intros _; apply keeps_raise].
Qed.

Lemma keeps_choosing_method choice :
  keeps R (сhoosing_method lower repr_dict choice).
Proof.
  unfold сhoosing_method.
  pose proof (method_dict_cases lower repr_dict choice) as Hc.
  destruct (method_dict lower repr_dict !! choice) as [method |];
    [| apply keeps_print].
  destruct Hc as [[_ ->] | [[_ ->] | [[_ ->] | [[_ ->] | [[_ ->] | [_ ->]]]]]].
  - apply keeps_add_book_to_library.
  - apply keeps_del_book.
  - apply keeps_search_for_book.
  - apply keeps_show_all_books.
  - apply keeps_change_status_of_book.
  - apply keeps_exit_library.
Qed.

Lemma keeps_main_turn : keeps R (main_turn lower repr_dict exception_text).
Proof.
  unfold main_turn.
  do 6 (apply keeps_bind; [apply keeps_print | intros _]).
  apply keeps_bind; [apply R_input | intros choice].
  apply keeps_try_except; [apply keeps_choosing_method |].
  intros r handle Hr.
  destruct (is_ValueError r); [injection Hr as <-; apply keeps_print |].
  destruct (is_Exception r); [injection Hr as <-; apply keeps_print | done].
Qed.

Lemma keeps_main fuel : ∀ c r c',
  main lower repr_dict exception_text fuel c = Some (r, c') → R c c'.
Proof.
  induction fuel as [| fuel IH]; intros c r c'; cbn; [done |].
  pose proof (keeps_main_turn c) as Hturn.
  destruct (main_turn lower repr_dict exception_text c) as [[[] | r1] c1]; cbn in Hturn.
  - intros Hmain. transitivity c1; [done | by apply (IH c1 r)].
  - by intros [= <- <-].
Qed.

Lemma keeps_program fuel c out c' :
  program lower repr_dict exception_text fuel c = Some (out, c') → R c c'.
Proof.
  unfold program.
  destruct (main lower repr_dict exception_text fuel c) as [[r c1] |] eqn:Hmain;
    [| done].
  apply keeps_main in Hmain.
  match goal with |- Some (?m c1) = _ → _ => assert (keeps R m) as Hm end.
  { apply keeps_try_finally; [| apply R_final].
    apply keeps_try_except; [apply keeps_raise |].
    intros r0 handle Hr. destruct (is_Exception r0); [| done].
    injection Hr as <-. apply keeps_print. }
  intros [= Heq]. specialize (Hm c1). rewrite Heq in Hm. cbn in Hm.
  by transitivity c1.
Qed.

End KeepsRules.


Section ConsoleFacts.

Import Cli.

Implicit Types (c : console) (w : Library.world).

Lemma call_eq {A} (m : Library.IO A) c :
  stdin (call m c).2 = stdin c ∧ world (call m c).2 = (m (world c)).2.
Proof. unfold call. by destruct (m (world c)) as [[a | e] w']. Qed.

Lemma input_eq prompt c :
  Library.files (world (input prompt c).2) = Library.files (world c) ∧
  match stdin c with
  | [] => (input prompt c).1 = Raised EOFError ∧ stdin (input prompt c).2 = []
  | line :: rest => (input prompt c).1 = Return line ∧ stdin (input prompt c).2 = rest
  end.
Proof. unfold input. by destruct (stdin c). Qed.

Lemma reads_on_preorder : PreOrder reads_on.
Proof.
  split.
  - intros c. unfold reads_on. reflexivity.
  - intros c1 c2 c3 H12 H23. unfold reads_on in *. by transitivity (stdin c2).
Qed.

Lemma reads_on_input prompt : keeps reads_on (input prompt).
Proof.
  intros c. unfold reads_on. pose proof (input_eq prompt c) as [_ Hin].
  destruct (stdin c) as [| line rest]; destruct Hin as [_ ->]; [done |].
  by apply suffix_cons_r.
Qed.

Lemma reads_on_call {A} (m : Library.IO A) : keeps reads_on (call m).
Proof. intros c. unfold reads_on. by rewrite (proj1 (call_eq m c)). Qed.

Lemma same_files_preorder : PreOrder same_files.
Proof.
  split.
  - by intros c.
  - intros c1 c2 c3 H12 H23. unfold same_files in *. congruence.
Qed.

Lemma same_files_input prompt : keeps same_files (input prompt).
Proof. intros c. apply input_eq. Qed.

Lemma same_files_quiet {A} (m : Library.IO A) :
  (∀ w, Library.files (m w).2 = Library.files w) → keeps same_files (call m).
Proof. intros Hm c. unfold same_files. by rewrite (proj2 (call_eq m c)). Qed.

Lemma other_files_kept_preorder : PreOrder other_files_kept.
Proof.
  split.
  - by intros c.
  - intros c1 c2 c3 H12 H23 other Hne. by rewrite H23, H12.
Qed.

Lemma same_files_other c c' : same_files c c' → other_files_kept c c'.
Proof. intros Hs other _. by rewrite Hs. Qed.

Lemma other_files_kept_step {A} (m : Library.IO A) :
  (∀ w, step LIBRARY_FILE w (m w).2) → keeps other_files_kept (call m).
Proof.
  intros Hm c other Hne. rewrite (proj2 (call_eq m c)).
  by apply (step_other_files LIBRARY_FILE).
Qed.

Lemma finally_block_eq c :
  match Library.load_library LIBRARY_FILE (world c) with
  | (Ok books, _) =>
      finally_block c =
        (Return (),
         mkConsole (stdin c)
           (Library.mkWorld
              (<[LIBRARY_FILE := Library.JsonArray (List.map Books.to_dict books)]>
                 (Library.files (world c)))
              (Library.stdout (world c)
                 ++ [save_line LIBRARY_FILE; "Изменения сохранены. Работа завершена."])))
  | (Raise e, _) => finally_block c = (Raised (Exception e), c)
  end.
Proof.
  unfold finally_block, mbind, cli_bind, call, Library.list_books.
  pose proof (load_library_world LIBRARY_FILE (world c)) as Hw.
  destruct (Library.load_library LIBRARY_FILE (world c)) as [[books | e] w0];
    cbn in Hw; subst w0; [| by destruct c].
  rewrite save_library_eq. cbn. by rewrite <- app_assoc.
Qed.

Lemma other_files_kept_finally : keeps other_files_kept finally_block.
Proof.
  intros c other Hne. pose proof (finally_block_eq c) as Hf.
  destruct (Library.load_library LIBRARY_FILE (world c)) as [[books | e] w0];
    rewrite Hf; cbn; [by rewrite lookup_insert_ne | done].
Qed.

Lemma reads_on_finally : keeps reads_on finally_block.
Proof.
  intros c. unfold reads_on. pose proof (finally_block_eq c) as Hf.
  by destruct (Library.load_library LIBRARY_FILE (world c)) as [[books | e] w0];
    rewrite Hf.
Qed.







End ConsoleFacts.

(** ** How [main] ends *)

Section Ending.

Import Cli.

Variable lower : string → string.
Variable repr_dict : gmap string string → string.
Variable exception_text : raised → string.

Implicit Types (c : console).

Lemma never_exits_ret {A} (a : A) : never_exits (mret a : CLI A).
Proof. by intros c r [=]. Qed.

Lemma never_exits_bind {A B} (m : CLI A) (f : A → CLI B) :
  never_exits m → (∀ a, never_exits (f a)) → never_exits (m ≫= f).
Proof.
  intros Hm Hf c r. unfold mbind, cli_bind. specialize (Hm c).
  destruct (m c) as [[a | r1] c1]; [apply Hf |].
  intros [= <-]. by apply Hm.
Qed.

Lemma never_exits_input prompt : never_exits (input prompt).
Proof. intros c r. unfold input. by destruct (stdin c); intros [= <-]. Qed.

Lemma never_exits_call {A} (m : Library.IO A) : never_exits (call m).
Proof.
  intros c r. unfold call.
  by destruct (m (world c)) as [[a | e] w']; intros [= <-].
Qed.

Lemma never_exits_print_books books : never_exits (print_books repr_dict books).
Proof.
  induction books as [| book books IH]; cbn; [apply never_exits_ret |].
  apply never_exits_bind; [apply never_exits_call | done].
Qed.

Lemma never_exits_number prompt : never_exits (input prompt ≫= int).
Proof.
  apply never_exits_bind; [apply never_exits_input | intros s; apply never_exits_call].
Qed.

(** Only the sixth method raises [SystemExit]. *)
Lemma choosing_method_exit choice c :
  (сhoosing_method lower repr_dict choice c).1 = Raised SystemExit → choice = "6".
Proof.
  unfold сhoosing_method.
  pose proof (method_dict_cases lower repr_dict choice) as Hc.
  destruct (method_dict lower repr_dict !! choice) as [method |].
  - destruct Hc as [[_ ->] | [[_ ->] | [[_ ->] | [[_ ->] | [[_ ->] | [-> _]]]]]];
      [| | | | | done]; intros Hexit; exfalso; revert Hexit;
      match goal with |- (?m c).1 = _ → _ =>
        assert (never_exits m) as Hm; [| intros Hexit; by apply (Hm c _ Hexit)]
      end.
    + unfold add_book_to_library.
      repeat (apply never_exits_bind; [first [apply never_exits_number | apply never_exits_input | apply never_exits_call] | intros ?]).
      apply never_exits_call.
    + unfold del_book.
      repeat (apply never_exits_bind; [first [apply never_exits_number | apply never_exits_input | apply never_exits_call] | intros ?]).
      match goal with |- never_exits (if ?b then _ else _) => destruct b end;
        apply never_exits_call.
    + unfold search_for_book.
      do 3 (apply never_exits_bind; [apply never_exits_input | intros ?]).
      apply never_exits_bind.
      { destruct (Py.truthy_str _); [| apply never_exits_ret].
        apply never_exits_bind; [apply never_exits_call | intros ?; apply never_exits_ret]. }
      intros year. apply never_exits_bind; [apply never_exits_call |].
      intros [| book results]; [apply never_exits_call | apply never_exits_print_books].
    + unfold show_all_books. apply never_exits_bind; [apply never_exits_call |].
      intros [| book results]; [apply never_exits_call | apply never_exits_print_books].
    + unfold change_status_of_book.
      repeat (apply never_exits_bind; [first [apply never_exits_number | apply never_exits_input | apply never_exits_call] | intros ?]).
      match goal with |- never_exits (if ?b then _ else _) => destruct b end;
        apply never_exits_call.
  - intros Hexit. by apply never_exits_call in Hexit.
Qed.

Lemma reads_on_choosing_method choice :
  keeps reads_on (сhoosing_method lower repr_dict choice).
Proof.
  apply (keeps_choosing_method reads_on (PreOrder0 := reads_on_preorder)).
  - apply reads_on_input.
  - intros A m _. apply reads_on_call.
  - intros A m _. apply reads_on_call.
Qed.

(** One turn: it returns after reading the choice and perhaps more, or it
    raises [EOFError] for want of a choice, or [SystemExit] on choice 6. *)
Lemma main_turn_cases c :
  match main_turn lower repr_dict exception_text c with
  | (Return _, c') =>
      ∃ choice rest, stdin c = choice :: rest ∧ suffix (stdin c') rest
  | (Raised r, c') =>
      r = EOFError ∧ stdin c' = [] ∨
      r = SystemExit ∧ ∃ rest, stdin c = "6" :: rest
  end.
Proof.
  unfold main_turn, mbind, cli_bind, print, call, Library.print. cbn.
  unfold input. cbn. destruct (stdin c) as [| choice rest]; [by left |].
  unfold try_except.
  match goal with |- context [сhoosing_method _ _ _ ?c1] => set (c1' := c1) end.
  pose proof (reads_on_choosing_method choice c1') as Hreads.
  pose proof (choosing_method_exit choice c1') as Hexit.
  unfold reads_on in Hreads. cbn in Hreads.
  destruct (сhoosing_method lower repr_dict choice c1') as [[[] | r] c2];
    cbn in Hreads, Hexit.
  - by exists choice, rest.
  - destruct r as [e | |]; cbn.
    + destruct e; cbn; by exists choice, rest.
    + by exists choice, rest.
    + right. split; [done |]. exists rest. by rewrite Hexit.
Qed.


Lemma main_enough_fuel fuel : ∀ c,
  (length (stdin c) < fuel)%nat →
  ∃ r c',
    main lower repr_dict exception_text fuel c = Some (r, c') ∧
    (r = EOFError ∧ stdin c' = [] ∨ r = SystemExit ∧ "6" ∈ stdin c).
Proof.
  induction fuel as [| fuel IH]; intros c Hlen; [lia |]. cbn.
  pose proof (main_turn_cases c) as Hturn.
  destruct (main_turn lower repr_dict exception_text c) as [[[] | r1] c1].
  - destruct Hturn as (choice & rest & Hc & Hsuf).
    destruct (IH c1) as (r & c' & Hmain & Hend).
    { apply suffix_length in Hsuf. rewrite Hc in Hlen. cbn in Hlen. lia. }
    exists r, c'. split; [done |].
    destruct Hend as [? | [-> Hsix]]; [by left | right]. split; [done |].
    rewrite Hc. apply list_elem_of_further.
    destruct Hsuf as [front ->]. apply elem_of_app. by right.
  - exists r1, c1. split; [done |].
    destruct Hturn as [? | [-> [rest ->]]]; [by left | right].
    split; [done | apply list_elem_of_here].
Qed.

Lemma main_more_fuel fuel : ∀ c result,
  main lower repr_dict exception_text fuel c = Some result →
  main lower repr_dict exception_text (S fuel) c = Some result.
Proof.
  induction fuel as [| fuel IH]; intros c result; [done |].
  intros Hmain. cbn in Hmain. change (main _ _ _ (S (S fuel)) c) with
    (match main_turn lower repr_dict exception_text c with
     | (Return tt, c') => main lower repr_dict exception_text (S fuel) c'
     | (Raised r, c') => Some (r, c')
     end).
  destruct (main_turn lower repr_dict exception_text c) as [[[] | r1] c1];
    [by apply IH | done].
Qed.

(** X19: [main] always ends on a finite input, and the way it ends does not
    depend on the bound on the number of turns, once this exceeds the
    number of lines.  It ends by [EOFError] when the input is used up, or
    by [SystemExit] after the line [6] was typed; no exception raised by a
    method ends the loop. *)
Theorem main_ends c :
  ∃ r c',
    (∀ fuel, (length (stdin c) < fuel)%nat →
       main lower repr_dict exception_text fuel c = Some (r, c')) ∧
    (r = EOFError ∧ stdin c' = [] ∨ r = SystemExit ∧ "6" ∈ stdin c).
Proof.
  destruct (main_enough_fuel (S (length (stdin c))) c) as (r & c' & Hmain & Hend);
    [lia |].
  exists r, c'. split; [| done].
  intros fuel Hlen.
  replace fuel with ((fuel - S (length (stdin c))) + S (length (stdin c)))%nat by lia.
  induction (fuel - S (length (stdin c)))%nat as [| n IH]; [done |].
  by apply main_more_fuel.
Qed.

End Ending.

(** ** The methods, the program and the files *)

Section ConsoleFiles.

Import Cli.

Variable lower : string → string.
Variable repr_dict : gmap string string → string.
Variable exception_text : raised → string.

Implicit Types (c : console).

Lemma same_files_print line : keeps same_files (print line).
Proof. by apply same_files_quiet. Qed.

Lemma other_files_kept_input prompt : keeps other_files_kept (input prompt).
Proof. intros c. apply same_files_other, same_files_input. Qed.

Lemma other_files_kept_quiet {A} (m : Library.IO A) :
  (∀ w, Library.files (m w).2 = Library.files w) → keeps other_files_kept (call m).
Proof. intros Hm c. by apply same_files_other, same_files_quiet. Qed.

(** X18: whatever is chosen and typed, [сhoosing_method] touches no file but
    the library file; and it touches no file at all unless the choice is 1,
    2 or 5: searching, listing, leaving and a choice that is not in the
    menu never write. *)
Theorem choosing_method_files choice c :
  other_files_kept c (сhoosing_method lower repr_dict choice c).2 ∧
  (choice ∉ writing_choices →
     same_files c (сhoosing_method lower repr_dict choice c).2).
Proof.
  split.
  - apply (keeps_choosing_method other_files_kept
             (PreOrder0 := other_files_kept_preorder)).
    + apply other_files_kept_input.
    + intros A. apply other_files_kept_quiet.
    + intros A. apply other_files_kept_step.
  - intros Hw. unfold сhoosing_method.
    pose proof (method_dict_cases lower repr_dict choice) as Hc.
    destruct (method_dict lower repr_dict !! choice) as [method |];
      [| apply same_files_print].
    destruct Hc as [[-> _] | [[-> _] | [[_ ->] | [[_ ->] | [[-> _] | [_ ->]]]]]].
    + exfalso. apply Hw. is_elem.
    + exfalso. apply Hw. is_elem.
    + apply (keeps_search_for_book same_files (PreOrder0 := same_files_preorder));
        [apply same_files_input | intros A; apply same_files_quiet].
    + apply (keeps_show_all_books same_files (PreOrder0 := same_files_preorder)).
      intros A. apply same_files_quiet.
    + exfalso. apply Hw. is_elem.
    + apply (keeps_exit_library same_files (PreOrder0 := same_files_preorder)).
      intros A. apply same_files_quiet.
Qed.





(** X22: the [finally] block of the program on a library file it cannot
    read.  A file that is missing, or whose text is not JSON, counts as an
    empty library and is saved as such: the block returns normally and the
    file then holds an empty array, whatever text it held before.  A file
    whose bytes are not UTF-8 text makes the block raise
    [UnicodeDecodeError]; nothing is written or printed. *)
Theorem finally_block_on_unreadable_file c :
  (Library.files (world c) !! LIBRARY_FILE = None ∨
   Library.files (world c) !! LIBRARY_FILE = Some Library.NotJson →
     (finally_block c).1 = Return () ∧
     Library.files (world (finally_block c).2)
       = <[LIBRARY_FILE := Library.JsonArray []]> (Library.files (world c))) ∧
  (Library.files (world c) !! LIBRARY_FILE = Some Library.NotUtf8 →
     finally_block c = (Raised (Exception UnicodeDecodeError), c)).
Proof.
  pose proof (finally_block_eq c) as Hfin. split.
  - intros Hf.
    assert (Library.load_library LIBRARY_FILE (world c) = (Ok [], world c)) as Hload
      by (destruct Hf; [by apply load_library_absent | by apply load_library_not_json]).
    rewrite Hload in Hfin. by rewrite Hfin.
  - intros Hf. by rewrite (load_library_not_utf8 _ _ Hf) in Hfin.
Qed.

(** X23: a number that [int] rejects stops a method before it touches the
    library: [del_book] and [change_status_of_book] raise [ValueError] after
    reading that one line, the second without asking for the status, and
    [add_book_to_library] after reading the title, the author and the year;
    no file is changed. *)
Theorem bad_number_stops_method c line rest :
  Py.int line = None →
  (stdin c = line :: rest →
     (del_book c).1 = Raised (Exception ValueError) ∧
     stdin (del_book c).2 = rest ∧
     same_files c (del_book c).2) ∧
  (stdin c = line :: rest →
     (change_status_of_book c).1 = Raised (Exception ValueError) ∧
     stdin (change_status_of_book c).2 = rest ∧
     same_files c (change_status_of_book c).2) ∧
  (∀ title author, stdin c = title :: author :: line :: rest →
     (add_book_to_library repr_dict c).1 = Raised (Exception ValueError) ∧
     stdin (add_book_to_library repr_dict c).2 = rest ∧
     same_files c (add_book_to_library repr_dict c).2).
Proof.
  intros Hbad. split; [| split].
  - intros Hin. unfold del_book, mbind, cli_bind, input, int, call, Library.lift, Books.int.
    rewrite Hin. cbn. by rewrite Hbad.
  - intros Hin.
    unfold change_status_of_book, mbind, cli_bind, input, int, call, Library.lift, Books.int.
    rewrite Hin. cbn. by rewrite Hbad.
  - intros title author Hin.
    unfold add_book_to_library, mbind, cli_bind, input, int, call, Library.lift, Books.int.
    rewrite Hin. cbn. by rewrite Hbad.
Qed.

End ConsoleFiles.

(** ** The further properties on sample data *)



Lemma sample_world_positive : positive_ids [war_and_peace; warlock].
Proof. repeat constructor; cbn; lia. Qed.

Lemma add_book_twice_witness :
  (Library.load_library "library.json" sample_world).1 = Ok [war_and_peace; warlock] ∧
  ∃ book1 book2,
    (Library.add_book "Dune" "Frank Herbert" 1965 "library.json" sample_world).1
      = Ok book1 ∧
    (Library.add_book "Emma" "Jane Austen" 1815 "library.json"
       (Library.add_book "Dune" "Frank Herbert" 1965 "library.json" sample_world).2).1
      = Ok book2 ∧
    Books.id book2 = Books.id book1 + 1.
Proof.
  split; [exact sample_world_books |].
  destruct (add_book_twice "Dune" "Frank Herbert" 1965 "Emma" "Jane Austen" 1815
              "library.json" sample_world _ sample_world_books)
    as (book1 & book2 & H1 & H2 & Hid & _).
  by exists book1, book2.
Defined.

Lemma remove_added_book_witness :
  (Library.load_library "library.json" sample_world).1 = Ok [war_and_peace; warlock] ∧
  ∃ book,
    (Library.add_book "Dune" "Frank Herbert" 1965 "library.json" sample_world).1
      = Ok book ∧
    (Library.load_library "library.json"
       (Library.remove_book (Books.id book) "library.json"
          (Library.add_book "Dune" "Frank Herbert" 1965 "library.json" sample_world).2).2).1
      = Ok [war_and_peace; warlock].
Proof.
  split; [exact sample_world_books |].
  destruct (remove_added_book "Dune" "Frank Herbert" 1965 "library.json" sample_world _
              sample_world_books)
    as (book & Hadd & _ & Hload).
  by exists book.
Defined.

Lemma remove_book_twice_witness :
  (Library.load_library "library.json" sample_world).1 = Ok [war_and_peace; warlock] ∧
  Library.remove_book 3 "library.json"
    (Library.remove_book 3 "library.json" sample_world).2
  = (Ok false, (Library.remove_book 3 "library.json" sample_world).2).
Proof.
  split; [exact sample_world_books |].
  exact (remove_book_twice 3 "library.json" sample_world _ sample_world_books).
Defined.

Lemma remove_book_unique_witness :
  NoDup (List.map Books.id ([war_and_peace] ++ warlock :: [])) ∧
  Library.remove_book 3 "library.json" sample_world
    = (Ok true, (Library.save_library ([war_and_peace] ++ []) "library.json" sample_world).2).
Proof.
  assert (NoDup (List.map Books.id ([war_and_peace] ++ warlock :: []))) as Hdup.
  { cbn. apply NoDup_cons. split; [is_not_elem |]. apply NoDup_singleton. }
  split; [exact Hdup |].
  exact (remove_book_unique 3 "library.json" sample_world [war_and_peace] warlock []
           sample_world_books Hdup eq_refl).
Defined.

Lemma update_book_status_keeps_witness :
  (Library.load_library "library.json" sample_world).1 = Ok [war_and_peace; warlock] ∧
  ∃ books',
    (Library.load_library "library.json"
       (Library.update_book_status 3 "в наличии" "library.json" sample_world).2).1
      = Ok books' ∧
    List.map without_status books' = List.map without_status [war_and_peace; warlock].
Proof.
  split; [exact sample_world_books |].
  destruct (update_book_status_keeps 3 "в наличии" "library.json" sample_world _
              sample_world_books) as (books' & Hload & Hkeep).
  exists books'. split; [exact Hload |].
  clear Hload. induction Hkeep as [| b' b l' l [Hb _] _ IH]; cbn; [done |].
  by rewrite Hb, IH.
Defined.

Lemma update_book_status_twice_witness :
  (Library.load_library "library.json" sample_world).1 = Ok [war_and_peace; warlock] ∧
  Library.files
    (Library.update_book_status 1 "выдана" "library.json"
       (Library.update_book_status 1 "выдана" "library.json" sample_world).2).2
  = Library.files (Library.update_book_status 1 "выдана" "library.json" sample_world).2.
Proof.
  split; [exact sample_world_books |].
  exact (proj2 (update_book_status_twice 1 "выдана" "library.json" sample_world _
                  sample_world_books)).
Defined.

Lemma search_books_narrows_witness :
  (Library.list_books "library.json" sample_world).1 = Ok [war_and_peace; warlock] ∧
  ∃ found,
    (Library.search_books Py.ascii_lower "library.json" (Some "war") None (Some 1958)
       sample_world).1 = Ok found ∧
    sublist found [war_and_peace; warlock].
Proof.
  split; [exact sample_world_books |].
  destruct (search_books_narrows Py.ascii_lower "library.json" (Some "war") None
              (Some 1958) sample_world _ sample_world_books)
    as (found & f1 & f2 & f3 & Hfound & _ & _ & _ & Hsub & _).
  by exists found.
Defined.

Lemma reachable_positive_ids_witness :
  reachable "library.json"
    (Library.add_book "War and Peace" "Leo Tolstoy" 1869 "library.json" empty_world).2 ∧
  ∃ books,
    Library.load_library "library.json"
      (Library.add_book "War and Peace" "Leo Tolstoy" 1869 "library.json" empty_world).2
      = (Ok books,
         (Library.add_book "War and Peace" "Leo Tolstoy" 1869 "library.json" empty_world).2) ∧
    positive_ids books.
Proof.
  split; [apply reachable_after_add |].
  apply (reachable_positive_ids "library.json"). apply reachable_after_add.
Defined.

Lemma add_after_remove_greatest_witness :
  (Library.load_library "library.json" sample_world).1 = Ok [war_and_peace; warlock] ∧
  positive_ids [war_and_peace; warlock] ∧
  ∃ book,
    (Library.add_book "Dune" "Frank Herbert" 1965 "library.json"
       (Library.remove_book 3 "library.json" sample_world).2).1 = Ok book ∧
    1 ≤ Books.id book ≤ 3.
Proof.
  split; [exact sample_world_books |]. split; [exact sample_world_positive |].
  apply (add_after_remove_greatest "Dune" "Frank Herbert" 1965 "library.json"
           sample_world [war_and_peace; warlock] sample_world_books);
    [discriminate | exact sample_world_positive].
Defined.

Lemma add_book_on_unreadable_file_witness :
  Library.files empty_world !! "library.json" = None ∧
  (Library.add_book "Dune" "Frank Herbert" 1965 "library.json" empty_world).1
    = Ok (Books.mkBook 1 "Dune" "Frank Herbert" 1965 "в наличии") ∧
  Library.files cp1251_world !! "library.json" = Some Library.NotUtf8 ∧
  Library.add_book "Dune" "Frank Herbert" 1965 "library.json" cp1251_world
    = (Raise UnicodeDecodeError, cp1251_world).
Proof.
  destruct (add_book_on_unreadable_file "Dune" "Frank Herbert" 1965 "library.json"
              empty_world) as [Hmissing _].
  destruct (add_book_on_unreadable_file "Dune" "Frank Herbert" 1965 "library.json"
              cp1251_world) as [_ Hbytes].
  split; [reflexivity |]. split; [apply Hmissing; left; reflexivity |].
  split; [reflexivity |]. apply Hbytes. reflexivity.
Defined.

Lemma load_library_raises_witness :
  Library.files
    (Library.mkWorld
       {[ "library.json" := Library.JsonArray [ {[ "id" := "1"; "title" := "T" ]} ] ]} [])
    !! "library.json"
    = Some (Library.JsonArray [ {[ "id" := "1"; "title" := "T" ]} ]) ∧
  validation_error (KeyError "author").
Proof.
  split; [reflexivity |].
  refine (proj2 (load_library_raises "library.json"
                   (Library.mkWorld
                      {[ "library.json" :=
                           Library.JsonArray [ {[ "id" := "1"; "title" := "T" ]} ] ]} [])
                   [ {[ "id" := "1"; "title" := "T" ]} ] (KeyError "author") _ _) _).
  - reflexivity.
  - vm_compute. reflexivity.
Defined.


Lemma finally_block_on_unreadable_file_witness :
  Library.files (Cli.world (Cli.mkConsole [] empty_world)) !! Cli.LIBRARY_FILE = None ∧
  (Cli.finally_block (Cli.mkConsole [] empty_world)).1 = Cli.Return () ∧
  Library.files (Cli.world (Cli.mkConsole [] cp1251_world)) !! Cli.LIBRARY_FILE
    = Some Library.NotUtf8 ∧
  Cli.finally_block (Cli.mkConsole [] cp1251_world)
    = (Cli.Raised (Cli.Exception UnicodeDecodeError), Cli.mkConsole [] cp1251_world).
Proof.
  destruct (finally_block_on_unreadable_file (Cli.mkConsole [] empty_world))
    as [Hmissing _].
  destruct (finally_block_on_unreadable_file (Cli.mkConsole [] cp1251_world))
    as [_ Hbytes].
  split; [reflexivity |]. split; [apply Hmissing; left; reflexivity |].
  split; [reflexivity |]. apply Hbytes. reflexivity.
Defined.

Lemma bad_number_stops_method_witness :
  Py.int "three" = None ∧
  (Cli.del_book (Cli.mkConsole ["three"; "6"] sample_world)).1
    = Cli.Raised (Cli.Exception ValueError) ∧
  Cli.stdin (Cli.del_book (Cli.mkConsole ["three"; "6"] sample_world)).2 = ["6"].
Proof.
  split; [reflexivity |].
  destruct (bad_number_stops_method elided_dict (Cli.mkConsole ["three"; "6"] sample_world)
              "three" ["6"] eq_refl) as [Hdel _].
  destruct (Hdel eq_refl) as (Hraise & Hin & _).
  split; [exact Hraise | exact Hin].
Defined.

(** The sample session, from the first menu to the final save. *)
Example sample_session :
  match Cli.program Py.ascii_lower elided_dict class_name 9 sample_console with
  | Some (out, c') =>
      out = Cli.Raised Cli.SystemExit ∧
      Cli.stdin c' = [] ∧
      (Library.load_library "library.json" (Cli.world c')).1
        = Ok [war_and_peace; warlock;
              Books.mkBook 4 "Dune" "Frank Herbert" 1965 "в наличии"] ∧
      "Ошибка ввода: ValueError" ∈ Library.stdout (Cli.world c')
  | None => False
  end.
Proof. vm_compute. repeat split. is_elem. Qed.
